(** * bcproxy: the tag dispatcher of proxy.c

    A shallow embedding of the callbacks of [src/proxy.c] ([on_open],
    [on_close], [on_tag_text], [on_arg_end], [on_text]) over the session
    state [struct proxy_state], and the properties of the rendering rules.

    Conventions of the embedding.
    - A byte is a [Byte.byte]; a memory region or a buffer's content is a
      [list byte].
    - A [char *] used as a C string is represented by the bytes stored at
      the pointer; every C string operation ([strcmp], [strncmp], the [%s]
      conversion, [buffer_append_str], [sscanf]) reads it up to its first
      NUL byte, which is what [cstr] computes.
    - [malloc], [asprintf] and the buffer's growth are taken to succeed: the
      [perror] branches of the source are the ones not represented.
    - [color.c] ([rgb_to_xterm]) and [room.c] ([room_new]) are outside the
      sources; they are parameters of the development. *)

From Stdlib Require Import List ZArith Lia Bool String.
From Stdlib Require Import Init.Byte Strings.Byte Numbers.DecimalString.
Import ListNotations.

Local Open Scope Z_scope.

(** ** Byte strings *)

(** The bytes of a string literal of the source. *)
Definition bs (s : string) : list byte := list_byte_of_string s.

(** The C string stored at the start of a region: the bytes before the
    first NUL (the whole region when the terminator lies just after it). *)
Fixpoint cstr (s : list byte) : list byte :=
  match s with
  | [] => []
  | c :: s' => if Byte.eqb c x00 then [] else c :: cstr s'
  end.

Definition byte_val (c : byte) : Z := Z.of_N (Byte.to_N c).

(** [strcmp]: the difference of the first two differing bytes, read as
    unsigned char; both arguments are followed by a NUL terminator. *)
Fixpoint strcmp (a b : list byte) : Z :=
  match a, b with
  | [], [] => 0
  | [], y :: _ => 0 - byte_val y
  | x :: _, [] => byte_val x
  | x :: a', y :: b' =>
      if Byte.eqb x y
      then (if Byte.eqb x x00 then 0 else strcmp a' b')
      else byte_val x - byte_val y
  end.

(** [strncmp]: as [strcmp], over at most [n] bytes. *)
Fixpoint strncmp (a b : list byte) (n : nat) {struct n} : Z :=
  match n with
  | O => 0
  | S n' =>
      match a, b with
      | [], [] => 0
      | [], y :: _ => 0 - byte_val y
      | x :: _, [] => byte_val x
      | x :: a', y :: b' =>
          if Byte.eqb x y
          then (if Byte.eqb x x00 then 0 else strncmp a' b' n')
          else byte_val x - byte_val y
      end
  end.

Definition strlen (s : list byte) : nat := List.length (cstr s).

(** ** printf conversions *)

(** [%d] of an [int]. *)
Definition fmt_d (n : Z) : list byte :=
  bs (NilZero.string_of_int (Z.to_int n)).

(** [%u] of an [unsigned int]: the argument is read modulo 2^32. *)
Definition fmt_u (n : Z) : list byte :=
  bs (NilZero.string_of_uint (N.to_uint (Z.to_N (n mod 2 ^ 32)))).

(** [%s]: the bytes of the C string argument. *)
Definition fmt_s (s : list byte) : list byte := cstr s.

(** ** sscanf(s, "%6x", &rgb) *)

Definition isspace (c : byte) : bool :=
  match c with
  | x20 | x09 | x0a | x0b | x0c | x0d => true
  | _ => false
  end.

Definition hexval (c : byte) : option Z :=
  match c with
  | x30 => Some 0 | x31 => Some 1 | x32 => Some 2 | x33 => Some 3
  | x34 => Some 4 | x35 => Some 5 | x36 => Some 6 | x37 => Some 7
  | x38 => Some 8 | x39 => Some 9
  | x41 | x61 => Some 10 | x42 | x62 => Some 11 | x43 | x63 => Some 12
  | x44 | x64 => Some 13 | x45 | x65 => Some 14 | x46 | x66 => Some 15
  | _ => None
  end.

Fixpoint skip_space (s : list byte) : list byte :=
  match s with
  | c :: s' => if isspace c then skip_space s' else s
  | [] => []
  end.

(** At most [w] hexadecimal digits from the head of [s], accumulated on
    [acc]; the number of digits read comes with the value. *)
Fixpoint scan_hex (w : nat) (s : list byte) (acc : Z) (k : nat) : Z * nat :=
  match w with
  | O => (acc, k)
  | S w' =>
      match s with
      | c :: s' =>
          match hexval c with
          | Some d => scan_hex w' s' (acc * 16 + d) (S k)
          | None => (acc, k)
          end
      | [] => (acc, k)
      end
  end.

(** Whether the item starts with the prefix [0x] or [0X]. *)
Definition has_0x (s : list byte) : bool :=
  match s with
  | c0 :: c1 :: _ => Byte.eqb c0 x30 && (Byte.eqb c1 x78 || Byte.eqb c1 x58)
  | _ => false
  end.

(** The digits of a [%x] item of field width [w], after the sign: an
    optional [0x] or [0X], counted in the width, then the digits.  An item
    without a digit is a matching failure ([None]), as ISO C has it; no
    property below depends on the value for [0x] alone. *)
Definition scan_hex_body (w : nat) (s : list byte) : option Z :=
  let '(w', s') :=
    if (2 <=? w)%nat && has_0x s then ((w - 2)%nat, skipn 2 s) else (w, s) in
  match scan_hex w' s' 0 0%nat with
  | (_, O) => None
  | (v, S _) => Some v
  end.

(** The value [sscanf(s, "%6x", &rgb)] stores in the [uint32_t], or [None]
    when nothing matches and the variable is not assigned.  White space is
    skipped first; a sign counts in the width and [-] negates modulo 2^32. *)
Definition sscanf_6x (s : list byte) : option Z :=
  match skip_space (cstr s) with
  | c :: s' =>
      if Byte.eqb c x2b then scan_hex_body 5 s'
      else if Byte.eqb c x2d then
        option_map (fun v => (0 - v) mod 2 ^ 32) (scan_hex_body 5 s')
      else scan_hex_body 6 (c :: s')
  | [] => None
  end.

(** The number a sequence of hexadecimal digits denotes. *)
Definition hexdigit (c : byte) : Z :=
  match hexval c with Some d => d | None => 0 end.

Definition hexnum (s : list byte) : Z :=
  fold_left (fun acc c => acc * 16 + hexdigit c) s 0.

Definition is_hex (c : byte) : bool :=
  match hexval c with Some _ => true | None => false end.

Definition all_hex (s : list byte) : bool := forallb is_hex s.

(** ** buffer.h *)

Module Buffer.

(** [struct buffer]: [data] is the content, the [len] bytes in use.  The
    capacity [sz] and what the region holds past [len] are not
    represented: [buffer.c] is not among the sources and the dispatcher
    never reads them. *)
Record buffer := { data : list byte }.

Definition len (b : buffer) : nat := List.length (data b).

(** Modelled from the spec: [buffer.c] is missing; append copies the
    [n] input bytes to the end of the buffer, growing it as needed. *)
Definition buffer_append (b : buffer) (s : list byte) (n : nat) : buffer :=
  {| data := data b ++ firstn n s |}.

(** Modelled from the spec: [buffer.c] is missing; the convenience form
    that appends another buffer's content. *)
Definition buffer_append_buf (b : buffer) (other : buffer) : buffer :=
  buffer_append b (data other) (len other).

(** Modelled from the spec: [buffer.c] is missing; the convenience form
    that appends a C string, without its terminator. *)
Definition buffer_append_str (b : buffer) (s : list byte) : buffer :=
  buffer_append b s (strlen s).

(** Modelled from the spec: [buffer.c] is missing; clearing resets the
    length to zero. *)
Definition buffer_clear (b : buffer) : buffer := {| data := [] |}.

(** The assignment [b->len = n] for [n] no larger than the length. *)
Definition set_len (b : buffer) (n : nat) : buffer :=
  {| data := firstn n (data b) |}.

End Buffer.

(** ** room.h, parser.h, proxy.h *)

Module Room.
(** The fields of [struct room] the dispatcher reads, each a C string. *)
Record room := { id : list byte; area : list byte; direction : list byte }.
End Room.

Record proxy_state := {
  obuf : Buffer.buffer;
  tmpbuf : Buffer.buffer;
  argstr : option (list byte);
  room : option Room.room
}.

Record bc_tag := { code : Z }.

Record bc_parser := { tag : option bc_tag; data : proxy_state }.

Definition set_obuf (st : proxy_state) (b : Buffer.buffer) : proxy_state :=
  {| obuf := b; tmpbuf := tmpbuf st; argstr := argstr st; room := room st |}.

Definition set_tmpbuf (st : proxy_state) (b : Buffer.buffer) : proxy_state :=
  {| obuf := obuf st; tmpbuf := b; argstr := argstr st; room := room st |}.

Definition set_argstr (st : proxy_state) (a : option (list byte)) : proxy_state :=
  {| obuf := obuf st; tmpbuf := tmpbuf st; argstr := a; room := room st |}.

Definition set_room (st : proxy_state) (r : option Room.room) : proxy_state :=
  {| obuf := obuf st; tmpbuf := tmpbuf st; argstr := argstr st; room := r |}.

Definition set_data (parser : bc_parser) (st : proxy_state) : bc_parser :=
  {| tag := tag parser; data := st |}.

(** [proxy_state_new]: both buffers empty, no argument, no room. *)
Definition proxy_state_new : proxy_state :=
  {| obuf := {| Buffer.data := [] |}; tmpbuf := {| Buffer.data := [] |};
     argstr := None; room := None |}.

(** The three ways the callbacks write to [st->obuf]. *)
Definition obuf_append (st : proxy_state) (s : list byte) (n : nat) : proxy_state :=
  set_obuf st (Buffer.buffer_append (obuf st) s n).

Definition obuf_append_buf (st : proxy_state) (b : Buffer.buffer) : proxy_state :=
  set_obuf st (Buffer.buffer_append_buf (obuf st) b).

Definition obuf_append_str (st : proxy_state) (s : list byte) : proxy_state :=
  set_obuf st (Buffer.buffer_append_str (obuf st) s).

(** The tag codes with a case of their own in the switch of [on_close]. *)
Definition known_codes : list Z :=
  [5; 6; 10; 11; 20; 21; 22; 23; 24; 25; 31; 40; 41; 42;
   50; 51; 52; 53; 54; 60; 64; 70; 99].

Definition known_code (c : Z) : bool := existsb (Z.eqb c) known_codes.

Definition ESC : list byte := [x1b].
Definition NL : list byte := [x0a].

Section Proxy.

(** [color.h]: the palette function, from a 24-bit RGB value to an index
    of the 256-colour palette. *)
Variable rgb_to_xterm : Z -> Z.

(** [room.h]: the decoder of a mapper payload; [None] is its [NULL]. *)
Variable room_new : list byte -> option Room.room.

(** The format of the colour tags,
    [asprintf(&out, "\033[%1$u8;5;%2$um%3$s\033[0m", ...)]. *)
Definition color_fmt (is_fg : bool) (rgb : Z) (tmpstr : list byte) : list byte :=
  ESC ++ bs "[" ++ fmt_u (if is_fg then 3 else 4) ++ bs "8;5;"
      ++ fmt_u (rgb_to_xterm rgb) ++ bs "m" ++ fmt_s tmpstr
      ++ ESC ++ bs "[0m".

Definition exited_fmt (a : list byte) : list byte :=
  bs "Exited to map from " ++ fmt_s a ++ bs "." ++ NL.

Definition entered_fmt (new : Room.room) : list byte :=
  bs "Entered area " ++ fmt_s (Room.area new) ++ bs " with direction "
     ++ fmt_s (Room.direction new) ++ NL.

Definition moved_fmt (old new : Room.room) : list byte :=
  bs "Moved (" ++ fmt_s (Room.id old) ++ bs ") --"
     ++ fmt_s (Room.direction new) ++ bs "-> (" ++ fmt_s (Room.id new)
     ++ bs ")" ++ NL.

Definition unknown_fmt (c : Z) (tmpstr : list byte) : list byte :=
  bs "[unknown tag " ++ fmt_d c ++ bs "]" ++ fmt_s tmpstr ++ NL.

(** The switch of [on_close] on the tag code; [tmpstr] is the C string
    at [st->tmpbuf->data] and [rgb0] the indeterminate initial value of
    the local [rgb]. *)
Definition render (c : Z) (tmpstr : list byte) (rgb0 : Z) (st : proxy_state)
  : proxy_state :=
  match c with
  | 5 | 6 => st
  | 10 =>
      match argstr st with
      | Some a =>
          if strcmp a (bs "spec_prompt") =? 0 then
            obuf_append_str (obuf_append_buf st (tmpbuf st)) [xff; xf9]
          else if strcmp a (bs "spec_map") =? 0 then
            if strcmp tmpstr (bs "NoMapSupport") =? 0 then st
            else obuf_append_buf st (tmpbuf st)
          else
            obuf_append_buf
              (obuf_append_str (obuf_append_str st a) (bs ": "))
              (tmpbuf st)
      | None => obuf_append_buf st (tmpbuf st)
      end
  | 11 => st
  | 20 | 21 =>
      match argstr st with
      | Some a =>
          let is_fg := c =? 20 in
          let rgb := match sscanf_6x a with Some v => v | None => rgb0 end in
          let out := color_fmt is_fg rgb tmpstr in
          obuf_append_str st out
      | None => st
      end
  | 22 | 23 | 24 | 25 | 31 => obuf_append_buf st (tmpbuf st)
  | 40 | 41 | 42 | 50 | 51 | 52 | 53 | 54 | 60 => st
  | 64 =>
      obuf_append_str
        (obuf_append_buf (obuf_append_str st (bs "[prots]")) (tmpbuf st)) NL
  | 70 =>
      obuf_append_str
        (obuf_append_buf (obuf_append_str st (bs "[target]")) (tmpbuf st)) NL
  | 99 =>
      if strncmp tmpstr (bs "BAT_MAPPER;;") (strlen (bs "BAT_MAPPER;;")) =? 0
      then
        if strcmp tmpstr (bs "BAT_MAPPER;;REALM_MAP") =? 0 then
          let msg :=
            exited_fmt (match room st with
                        | Some r => Room.area r
                        | None => bs "(unknown)"
                        end) in
          obuf_append_str (set_room st None) msg
        else
          match room_new tmpstr with
          | None => st
          | Some new =>
              let msg :=
                match room st with
                | None => entered_fmt new
                | Some old =>
                    if negb (strcmp (Room.area old) (Room.area new) =? 0)
                    then entered_fmt new
                    else moved_fmt old new
                end in
              obuf_append_str (set_room st (Some new)) msg
          end
      else st
  | _ =>
      let str := unknown_fmt c tmpstr in
      let len := List.length str in
      obuf_append st str len
  end.

(** [on_close]; [None] is the failure of [assert(parser->tag)]. *)
Definition on_close (parser : bc_parser) (rgb0 : Z) : option bc_parser :=
  match tag parser with
  | None => None
  | Some t =>
      let st := data parser in
      let tb := Buffer.buffer_append (tmpbuf st) [x00] 1 in
      (* the terminator stays in memory below: only [len] is set back *)
      let tmpstr := cstr (Buffer.data tb) in
      let st := set_tmpbuf st (Buffer.set_len tb (Buffer.len tb - 1)) in
      let st := render (code t) tmpstr rgb0 st in
      let st := set_argstr st None in
      Some (set_data parser (set_tmpbuf st (Buffer.buffer_clear (tmpbuf st))))
  end.

(** [on_open]: a pending body or argument is closed first. *)
Definition on_open (parser : bc_parser) (rgb0 : Z) : option bc_parser :=
  let st := data parser in
  if (0 <? Buffer.len (tmpbuf st))%nat
     || (match argstr st with Some _ => true | None => false end)
  then on_close parser rgb0
  else Some parser.

Definition on_tag_text (parser : bc_parser) (buf : list byte) (len : nat)
  : bc_parser :=
  let st := data parser in
  set_data parser (set_tmpbuf st (Buffer.buffer_append (tmpbuf st) buf len)).

(** [on_arg_end]: the argument is a copy of the body so far, with a
    terminator appended. *)
Definition on_arg_end (parser : bc_parser) : bc_parser :=
  let st := data parser in
  let st := set_argstr st (Some (Buffer.data (tmpbuf st) ++ [x00])) in
  set_data parser (set_tmpbuf st (Buffer.buffer_clear (tmpbuf st))).

Definition on_text (parser : bc_parser) (buf : list byte) (len : nat)
  : bc_parser :=
  let st := data parser in
  set_data parser (set_obuf st (Buffer.buffer_append (obuf st) buf len)).

End Proxy.

(** The rendered output and the pending body of a session. *)
Definition output (parser : bc_parser) : list byte :=
  Buffer.data (obuf (data parser)).

Definition body (parser : bc_parser) : list byte :=
  Buffer.data (tmpbuf (data parser)).

(** A sample palette and two sample decoders, for concrete runs. *)
Definition sample_palette (rgb : Z) : Z :=
  16 + 36 * (rgb / 65536 / 51) + 6 * (rgb / 256 mod 256 / 51) + rgb mod 256 / 51.

Definition no_room (s : list byte) : option Room.room := None.

Definition sample_room_new (s : list byte) : option Room.room :=
  match skipn 12 s with
  | [] => None
  | a :: rest =>
      Some {| Room.id := rest; Room.area := [a]; Room.direction := bs "north" |}
  end.

Definition mk_parser (c : Z) (st : proxy_state) : bc_parser :=
  {| tag := Some {| code := c |}; data := st |}.

Definition mk_state (o b : list byte) (a : option (list byte))
  (r : option Room.room) : proxy_state :=
  {| obuf := {| Buffer.data := o |}; tmpbuf := {| Buffer.data := b |};
     argstr := a; room := r |}.

(** Sample sessions.  Each holds the prompt [> ] in the output buffer. *)
Definition room_a1 : Room.room :=
  {| Room.id := bs "r1"; Room.area := bs "A"; Room.direction := bs "south" |}.

Definition room_b7 : Room.room :=
  {| Room.id := bs "r7"; Room.area := bs "B"; Room.direction := bs "west" |}.

Definition p_prompt : bc_parser :=
  mk_parser 10 (mk_state (bs "> ") (bs "hp:10")
                  (Some (bs "spec_prompt" ++ [x00])) None).

Definition p_nomap : bc_parser :=
  mk_parser 10 (mk_state (bs "> ") (bs "NoMapSupport")
                  (Some (bs "spec_map" ++ [x00])) None).

Definition p_chan : bc_parser :=
  mk_parser 10 (mk_state (bs "> ") (bs "hi") (Some (bs "chan" ++ [x00])) None).

Definition p_plain : bc_parser :=
  mk_parser 10 (mk_state (bs "> ") (bs "hi") None None).

Definition p_realm : bc_parser :=
  mk_parser 99 (mk_state (bs "> ") (bs "BAT_MAPPER;;REALM_MAP") None
                  (Some room_a1)).

Definition p_first : bc_parser :=
  mk_parser 99 (mk_state (bs "> ") (bs "BAT_MAPPER;;Ar2") None None).

Definition p_same : bc_parser :=
  mk_parser 99 (mk_state (bs "> ") (bs "BAT_MAPPER;;Ar2") None (Some room_a1)).

Definition p_other : bc_parser :=
  mk_parser 99 (mk_state (bs "> ") (bs "BAT_MAPPER;;Ar2") None (Some room_b7)).

Definition p_red (c : Z) : bc_parser :=
  mk_parser c (mk_state (bs "> ") (bs "red") (Some (bs "ff0000" ++ [x00])) None).

Definition p_red_nul : bc_parser :=
  mk_parser 20 (mk_state (bs "> ") (bs "a" ++ [x00] ++ bs "b")
                  (Some (bs "ff0000" ++ [x00])) None).

Definition p_unknown : bc_parser :=
  mk_parser 77 (mk_state (bs "> ") (bs "hello") None None).

Definition p_unknown_nul : bc_parser :=
  mk_parser 77 (mk_state (bs "> ") (bs "he" ++ [x00] ++ bs "llo") None None).

Definition p_prots : bc_parser :=
  mk_parser 64 (mk_state (bs "> ") (bs "shield") None None).

Definition p_status : bc_parser :=
  mk_parser 50 (mk_state (bs "> ") (bs "100 200 300") None None).

Definition p_color_noarg : bc_parser :=
  mk_parser 21 (mk_state (bs "> ") (bs "red") None None).

(** ** The parser's calls *)

(** [parser.c] is not among the sources: what it does to the dispatcher
    is a sequence of calls of the five callbacks, with its own updates of
    [parser->tag] in between.  [rgb0] is the indeterminate value a call
    finds in the local [rgb] of [on_close]. *)
Inductive callback :=
| CbSetTag (t : option bc_tag)
| CbOpen (rgb0 : Z)
| CbClose (rgb0 : Z)
| CbTagText (buf : list byte) (len : nat)
| CbArgEnd
| CbText (buf : list byte) (len : nat).

Definition call (rgb_to_xterm : Z -> Z)
  (room_new : list byte -> option Room.room)
  (parser : bc_parser) (c : callback) : option bc_parser :=
  match c with
  | CbSetTag t => Some {| tag := t; data := data parser |}
  | CbOpen rgb0 => on_open rgb_to_xterm room_new parser rgb0
  | CbClose rgb0 => on_close rgb_to_xterm room_new parser rgb0
  | CbTagText buf len => Some (on_tag_text parser buf len)
  | CbArgEnd => Some (on_arg_end parser)
  | CbText buf len => Some (on_text parser buf len)
  end.

(** A sequence of calls; [None] when an assertion fails on the way. *)
Fixpoint run (rgb_to_xterm : Z -> Z)
  (room_new : list byte -> option Room.room)
  (cs : list callback) (parser : bc_parser) : option bc_parser :=
  match cs with
  | [] => Some parser
  | c :: cs' =>
      match call rgb_to_xterm room_new parser c with
      | Some parser' => run rgb_to_xterm room_new cs' parser'
      | None => None
      end
  end.

(** The session of [parser] with the argument string replaced. *)
Definition with_argstr (parser : bc_parser) (a : list byte) : bc_parser :=
  set_data parser (set_argstr (data parser) (Some a)).

(** A body or a text delivered in whole chunks. *)
Definition tag_text_chunks (parser : bc_parser) (chunks : list (list byte))
  : bc_parser :=
  fold_left (fun q buf => on_tag_text q buf (List.length buf)) chunks parser.

Definition text_chunks (parser : bc_parser) (chunks : list (list byte))
  : bc_parser :=
  fold_left (fun q buf => on_text q buf (List.length buf)) chunks parser.

(** More sample sessions. *)
Definition p_bold : bc_parser :=
  mk_parser 22 (mk_state (bs "> ") (bs "bo" ++ [x00] ++ bs "ld") None None).

Definition p_target : bc_parser :=
  mk_parser 70 (mk_state (bs "> ") (bs "orc: 50%") None None).

Definition p_map_art : bc_parser :=
  mk_parser 10 (mk_state (bs "> ") (bs "..^^..") (Some (bs "spec_map" ++ [x00]))
                  None).

Definition p_no_mapper : bc_parser :=
  mk_parser 99 (mk_state (bs "> ") (bs "hello") None (Some room_a1)).

Definition p_chan_room : bc_parser :=
  mk_parser 10 (mk_state (bs "> ") (bs "hi") (Some (bs "chan" ++ [x00]))
                  (Some room_a1)).

Definition p_fresh : bc_parser :=
  mk_parser 10 (mk_state (bs "> ") [] None None).

Definition sample_calls : list callback :=
  [CbSetTag (Some {| code := 10 |}); CbOpen 0;
   CbTagText (bs "chan") 4; CbArgEnd; CbTagText (bs "hi") 2; CbClose 0;
   CbText NL 1].

(** * Properties *)

(** ** C strings *)

Lemma eqb_x00 (c : byte) : Byte.eqb c x00 = true <-> c = x00.
Proof.
  split; [apply Byte.byte_dec_bl | apply Byte.byte_dec_lb].
Qed.

Lemma byte_val_inj (x y : byte) : byte_val x = byte_val y -> x = y.
Proof.
  unfold byte_val; intros H.
  apply N2Z.inj in H.
  assert (E : Byte.of_N (Byte.to_N x) = Byte.of_N (Byte.to_N y))
    by (rewrite H; reflexivity).
  rewrite !Byte.of_to_N in E; congruence.
Qed.

Lemma byte_val_zero (x : byte) : byte_val x = 0 -> x = x00.
Proof.
  intros H; apply byte_val_inj; rewrite H; reflexivity.
Qed.

Lemma cstr_no_nul (s : list byte) : ~ In x00 (cstr s).
Proof.
  induction s as [|c s IH]; simpl; [tauto|].
  destruct (Byte.eqb c x00) eqn:E; simpl; [tauto|].
  intros [H|H]; [|tauto].
  subst c; discriminate.
Qed.

Lemma cstr_id (s : list byte) : ~ In x00 s -> cstr s = s.
Proof.
  induction s as [|c s IH]; simpl; intros H; [reflexivity|].
  destruct (Byte.eqb c x00) eqn:E.
  - apply eqb_x00 in E; subst c; tauto.
  - f_equal; apply IH; tauto.
Qed.

Lemma cstr_idem (s : list byte) : cstr (cstr s) = cstr s.
Proof.
  apply cstr_id, cstr_no_nul.
Qed.

Lemma cstr_app (a b : list byte) : ~ In x00 a -> cstr (a ++ b) = a ++ cstr b.
Proof.
  induction a as [|c a IH]; simpl; intros H; [reflexivity|].
  destruct (Byte.eqb c x00) eqn:E.
  - apply eqb_x00 in E; subst c; tauto.
  - f_equal; apply IH; tauto.
Qed.

Lemma cstr_app_nul (s t : list byte) : cstr (s ++ x00 :: t) = cstr s.
Proof.
  induction s as [|c s IH]; simpl; [reflexivity|].
  destruct (Byte.eqb c x00); [reflexivity | f_equal; exact IH].
Qed.

Lemma no_nul_app (a b : list byte) :
  ~ In x00 a -> ~ In x00 b -> ~ In x00 (a ++ b).
Proof.
  intros Ha Hb H; apply in_app_or in H; tauto.
Qed.

(** [strcmp] returns zero exactly on equal C strings. *)
Lemma strcmp_zero (a b : list byte) : strcmp a b = 0 <-> cstr a = cstr b.
Proof.
  revert b; induction a as [|x a IH]; intros [|y b]; simpl.
  - tauto.
  - destruct (Byte.eqb y x00) eqn:E.
    + apply eqb_x00 in E; subst y; simpl; tauto.
    + split; [|discriminate].
      intros H. assert (byte_val y = 0) by lia.
      apply byte_val_zero in H0; subst y; discriminate.
  - destruct (Byte.eqb x x00) eqn:E.
    + apply eqb_x00 in E; subst x; simpl; tauto.
    + split; [|discriminate].
      intros H; apply byte_val_zero in H; subst x; discriminate.
  - destruct (Byte.eqb x y) eqn:E.
    + apply Byte.byte_dec_bl in E; subst y.
      destruct (Byte.eqb x x00); [tauto|].
      rewrite IH; split; [congruence|].
      intros H; injection H; auto.
    + assert (Hxy : x <> y) by (apply Byte.eqb_false; exact E).
      split.
      * intros H; exfalso; apply Hxy, byte_val_inj; lia.
      * destruct (Byte.eqb x x00) eqn:Ex, (Byte.eqb y x00) eqn:Ey;
          try discriminate.
        -- apply eqb_x00 in Ex, Ey; congruence.
        -- intros H; injection H; intros; contradiction.
  Qed.

Lemma strcmp_eqb (a b : list byte) :
  (strcmp a b =? 0) = true <-> cstr a = cstr b.
Proof.
  rewrite Z.eqb_eq; apply strcmp_zero.
Qed.

Lemma strcmp_neqb (a b : list byte) :
  (strcmp a b =? 0) = false <-> cstr a <> cstr b.
Proof.
  rewrite Z.eqb_neq, strcmp_zero; tauto.
Qed.

(** [strncmp] sees a NUL-free prefix of its own length. *)
Lemma strncmp_prefix (p r : list byte) :
  ~ In x00 p -> strncmp (p ++ r) p (List.length p) = 0.
Proof.
  induction p as [|c p IH]; simpl; intros H; [reflexivity|].
  rewrite Byte.byte_dec_lb by reflexivity.
  destruct (Byte.eqb c x00) eqn:E; [reflexivity|].
  apply IH; tauto.
Qed.

(** ** Formatting and scanning *)

Lemma bs_cons (c : Ascii.ascii) (s : string) :
  bs (String c s) = Ascii.byte_of_ascii c :: bs s.
Proof. reflexivity. Qed.

Lemma string_of_uint_no_nul (d : Decimal.uint) :
  ~ In x00 (bs (NilEmpty.string_of_uint d)).
Proof.
  induction d; simpl NilEmpty.string_of_uint;
    [ simpl; tauto | rewrite bs_cons; simpl; intros [H|H];
                     [discriminate | tauto] .. ].
Qed.

Lemma fmt_u_no_nul (n : Z) : ~ In x00 (fmt_u n).
Proof.
  unfold fmt_u, NilZero.string_of_uint.
  destruct (N.to_uint _) eqn:E; try (rewrite <- E; apply string_of_uint_no_nul).
  simpl; intros [H|H]; [discriminate | tauto].
Qed.

Lemma hex_not_special (c : byte) :
  is_hex c = true ->
  isspace c = false /\ Byte.eqb c x2b = false /\ Byte.eqb c x2d = false
  /\ Byte.eqb c x78 = false /\ Byte.eqb c x58 = false.
Proof.
  destruct c; simpl; intros H; try discriminate H; repeat split.
Qed.

Lemma scan_hex_all (s : list byte) :
  forall w acc k, all_hex s = true -> (List.length s <= w)%nat ->
    scan_hex w s acc k
    = (fold_left (fun a c => a * 16 + hexdigit c) s acc, (k + List.length s)%nat).
Proof.
  induction s as [|c s IH]; intros w acc k Hh Hl.
  - destruct w; simpl; f_equal; lia.
  - simpl in Hh, Hl. apply andb_prop in Hh as [Hc Hs].
    destruct w as [|w]; [lia|].
    simpl. unfold is_hex in Hc. unfold hexdigit at 2.
    destruct (hexval c) as [d|]; [|discriminate].
    rewrite IH by (auto; lia). f_equal; lia.
Qed.

(** A field of one to six hexadecimal digits converts to its value. *)
Lemma sscanf_6x_hex (a : list byte) :
  cstr a <> [] -> (List.length (cstr a) <= 6)%nat -> all_hex (cstr a) = true ->
  sscanf_6x a = Some (hexnum (cstr a)).
Proof.
  unfold sscanf_6x. destruct (cstr a) as [|c s] eqn:E; [congruence|].
  intros _ Hl Hh. pose proof Hh as Hh'. simpl in Hh'.
  apply andb_prop in Hh' as [Hc Hs].
  destruct (hex_not_special c Hc) as (Hsp & Hp & Hm & _).
  simpl skip_space. rewrite Hsp, Hp, Hm.
  unfold scan_hex_body.
  assert (H0x : has_0x (c :: s) = false).
  { destruct s as [|c1 s]; [reflexivity|]. simpl in Hs |- *.
    apply andb_prop in Hs as [Hc1 _].
    destruct (hex_not_special c1 Hc1) as (_ & _ & _ & Hx & HX).
    rewrite Hx, HX. apply andb_false_r. }
  rewrite H0x, andb_false_r.
  rewrite scan_hex_all by assumption.
  reflexivity.
Qed.

(** ** The buffer *)

Lemma firstn_length_app (s t : list byte) : firstn (List.length s) (s ++ t) = s.
Proof.
  induction s as [|c s IH]; simpl; [destruct t; reflexivity | f_equal; exact IH].
Qed.

Lemma append_buf_data (b o : Buffer.buffer) :
  Buffer.data (Buffer.buffer_append_buf b o) = Buffer.data b ++ Buffer.data o.
Proof.
  unfold Buffer.buffer_append_buf, Buffer.buffer_append, Buffer.len; simpl.
  rewrite firstn_all; reflexivity.
Qed.

Lemma append_str_data (b : Buffer.buffer) (s : list byte) :
  Buffer.data (Buffer.buffer_append_str b s) = Buffer.data b ++ cstr s.
Proof.
  unfold Buffer.buffer_append_str, Buffer.buffer_append, strlen; simpl.
  f_equal. induction s as [|c s IH]; simpl; [reflexivity|].
  destruct (Byte.eqb c x00); simpl; [reflexivity | f_equal; exact IH].
Qed.

Lemma append_all_data (b : Buffer.buffer) (s : list byte) :
  Buffer.data (Buffer.buffer_append b s (List.length s)) = Buffer.data b ++ s.
Proof.
  unfold Buffer.buffer_append; simpl. rewrite firstn_all; reflexivity.
Qed.

(** Writing the terminator and setting [len] back leaves the buffer as it
    was. *)
Lemma terminate_restore (b : Buffer.buffer) :
  let tb := Buffer.buffer_append b [x00] 1 in
  Buffer.set_len tb (Buffer.len tb - 1) = b
  /\ cstr (Buffer.data tb) = cstr (Buffer.data b).
Proof.
  destruct b as [d]; unfold Buffer.set_len, Buffer.len, Buffer.buffer_append; simpl.
  split.
  - f_equal. rewrite length_app; simpl.
    replace (List.length d + 1 - 1)%nat with (List.length d) by lia.
    apply firstn_length_app.
  - apply cstr_app_nul.
Qed.

(** ** The dispatcher *)

Ltac no_nul :=
  repeat (apply no_nul_app);
  first [ apply cstr_no_nul | apply fmt_u_no_nul
        | simpl; intuition discriminate ].

Section Dispatch.

Variable rgb_to_xterm : Z -> Z.
Variable room_new : list byte -> option Room.room.

(** What [on_close] returns when the parser has a tag: the state the
    switch leaves, with the argument dropped and the body cleared. *)
Lemma on_close_render (p : bc_parser) (t : bc_tag) (rgb0 : Z) :
  tag p = Some t ->
  exists p',
    on_close rgb_to_xterm room_new p rgb0 = Some p'
    /\ tag p' = tag p
    /\ obuf (data p')
       = obuf (render rgb_to_xterm room_new (code t) (cstr (body p)) rgb0
                 (data p))
    /\ room (data p')
       = room (render rgb_to_xterm room_new (code t) (cstr (body p)) rgb0
                 (data p))
    /\ tmpbuf (data p') = {| Buffer.data := [] |}
    /\ argstr (data p') = None.
Proof.
  intros Ht. unfold on_close. rewrite Ht.
  destruct (terminate_restore (tmpbuf (data p))) as [Hb Hs].
  cbv zeta in Hb, Hs |- *. rewrite Hb, Hs.
  replace (set_tmpbuf (data p) (tmpbuf (data p))) with (data p)
    by (destruct (data p); reflexivity).
  eexists; split; [reflexivity|].
  unfold body; simpl; repeat split; auto.
Qed.

(** A tag code without a case of its own reaches the default case. *)
Lemma render_unknown (c : Z) (tmpstr : list byte) (rgb0 : Z) (st : proxy_state) :
  known_code c = false ->
  render rgb_to_xterm room_new c tmpstr rgb0 st
  = obuf_append st (unknown_fmt c tmpstr) (List.length (unknown_fmt c tmpstr)).
Proof.
  intros H. destruct c as [|q|q]; try reflexivity.
  do 7 (try (destruct q as [q|q|]; try reflexivity; try discriminate H)).
Qed.

(** C1.  The typed-message tag (code 10).  With the argument string
    [spec_prompt] the output is the body followed by the two bytes 0xFF
    0xF9; with the argument string [spec_map] and the body [NoMapSupport]
    nothing is written; with any other argument string (the empty one
    included) the output is the argument string, then a colon and a space,
    then the body; without an argument string the output is the body. *)
Theorem typed_message_render (p : bc_parser) (t : bc_tag) (rgb0 : Z) :
  tag p = Some t -> code t = 10 ->
  exists p',
    on_close rgb_to_xterm room_new p rgb0 = Some p'
    /\ (forall a, argstr (data p) = Some a -> cstr a = bs "spec_prompt" ->
        output p' = output p ++ body p ++ [xff; xf9])
    /\ (forall a, argstr (data p) = Some a -> cstr a = bs "spec_map" ->
        body p = bs "NoMapSupport" -> output p' = output p)
    /\ (forall a, argstr (data p) = Some a -> cstr a <> bs "spec_prompt" ->
        cstr a <> bs "spec_map" ->
        output p' = output p ++ cstr a ++ bs ": " ++ body p)
    /\ (argstr (data p) = None -> output p' = output p ++ body p).
Proof.
  intros Ht Hc.
  destruct (on_close_render p t rgb0 Ht) as (p' & Hp' & _ & Ho & _).
  exists p'; split; [exact Hp'|].
  unfold output, body in *. rewrite Ho, Hc. cbn [render].
  repeat split.
  - intros a Ha Hs. rewrite Ha.
    assert (E : (strcmp a (bs "spec_prompt") =? 0) = true)
      by (apply strcmp_eqb; rewrite Hs; reflexivity).
    rewrite E. unfold obuf_append_str, obuf_append_buf, set_obuf; cbn [obuf tmpbuf].
    rewrite append_str_data, append_buf_data, <- app_assoc; reflexivity.
  - intros a Ha Hs Hb. rewrite Ha.
    assert (E1 : (strcmp a (bs "spec_prompt") =? 0) = false)
      by (apply strcmp_neqb; rewrite Hs; discriminate).
    assert (E2 : (strcmp a (bs "spec_map") =? 0) = true)
      by (apply strcmp_eqb; rewrite Hs; reflexivity).
    assert (E3 : (strcmp (cstr (Buffer.data (tmpbuf (data p))))
                    (bs "NoMapSupport") =? 0) = true)
      by (apply strcmp_eqb; rewrite Hb; reflexivity).
    rewrite E1, E2, E3; reflexivity.
  - intros a Ha H1 H2. rewrite Ha.
    assert (E1 : (strcmp a (bs "spec_prompt") =? 0) = false)
      by (apply strcmp_neqb; exact H1).
    assert (E2 : (strcmp a (bs "spec_map") =? 0) = false)
      by (apply strcmp_neqb; exact H2).
    rewrite E1, E2. unfold obuf_append_str, obuf_append_buf, set_obuf; cbn [obuf tmpbuf].
    rewrite append_buf_data, !append_str_data, <- !app_assoc; reflexivity.
  - intros Ha. rewrite Ha. unfold obuf_append_buf, set_obuf; cbn [obuf tmpbuf].
    apply append_buf_data.
Qed.

(** The prefix test of the mapper tag succeeds on a body that starts with
    the prefix. *)
Lemma mapper_prefix_test (rest : list byte) :
  (strncmp (bs "BAT_MAPPER;;" ++ rest) (bs "BAT_MAPPER;;")
     (strlen (bs "BAT_MAPPER;;")) =? 0) = true.
Proof.
  apply Z.eqb_eq.
  change (strlen (bs "BAT_MAPPER;;")) with (List.length (bs "BAT_MAPPER;;")).
  apply strncmp_prefix. no_nul.
Qed.

Lemma realm_map_test (rest : list byte) :
  (strcmp (bs "BAT_MAPPER;;" ++ rest) (bs "BAT_MAPPER;;REALM_MAP") =? 0) = true
  <-> cstr rest = bs "REALM_MAP".
Proof.
  rewrite strcmp_eqb, cstr_app by no_nul.
  change (cstr (bs "BAT_MAPPER;;REALM_MAP"))
    with (bs "BAT_MAPPER;;" ++ bs "REALM_MAP").
  split; [apply app_inv_head | congruence].
Qed.

Lemma exited_fmt_cstr (a : list byte) : cstr (exited_fmt a) = exited_fmt a.
Proof. apply cstr_id; unfold exited_fmt, fmt_s, NL; no_nul. Qed.

Lemma entered_fmt_cstr (new : Room.room) : cstr (entered_fmt new) = entered_fmt new.
Proof. apply cstr_id; unfold entered_fmt, fmt_s, NL; no_nul. Qed.

Lemma moved_fmt_cstr (old new : Room.room) :
  cstr (moved_fmt old new) = moved_fmt old new.
Proof. apply cstr_id; unfold moved_fmt, fmt_s, NL; no_nul. Qed.

(** C2.  The mapper tag (code 99) on a body with the prefix
    [BAT_MAPPER;;].  When the body is [BAT_MAPPER;;REALM_MAP] the output is
    the line [Exited to map from X.], X the area of the stored room or
    [(unknown)] without one.  Otherwise, when the decoder returns a room:
    without a stored room, or with one of another area, the output is the
    line [Entered area X with direction Y]; with a stored room of the same
    area it is the line [Moved (old id) --direction-> (new id)].  Each line
    ends with a newline. *)
Theorem mapper_render (p : bc_parser) (t : bc_tag) (rgb0 : Z) :
  tag p = Some t -> code t = 99 ->
  exists p',
    on_close rgb_to_xterm room_new p rgb0 = Some p'
    /\ (cstr (body p) = bs "BAT_MAPPER;;REALM_MAP" ->
        output p'
        = output p ++ exited_fmt (match room (data p) with
                                  | Some r => Room.area r
                                  | None => bs "(unknown)"
                                  end))
    /\ (forall rest new,
          cstr (body p) = bs "BAT_MAPPER;;" ++ rest ->
          rest <> bs "REALM_MAP" ->
          room_new (cstr (body p)) = Some new ->
          (room (data p) = None -> output p' = output p ++ entered_fmt new)
          /\ (forall old, room (data p) = Some old ->
                cstr (Room.area old) <> cstr (Room.area new) ->
                output p' = output p ++ entered_fmt new)
          /\ (forall old, room (data p) = Some old ->
                cstr (Room.area old) = cstr (Room.area new) ->
                output p' = output p ++ moved_fmt old new)).
Proof.
  intros Ht Hc.
  destruct (on_close_render p t rgb0 Ht) as (p' & Hp' & _ & Ho & _).
  exists p'; split; [exact Hp'|].
  unfold output in *. rewrite Ho, Hc. cbn [render].
  split.
  - intros Hb. rewrite Hb.
    change (bs "BAT_MAPPER;;REALM_MAP") with (bs "BAT_MAPPER;;" ++ bs "REALM_MAP") at 1 2.
    rewrite mapper_prefix_test.
    assert (E : (strcmp (bs "BAT_MAPPER;;" ++ bs "REALM_MAP")
                   (bs "BAT_MAPPER;;REALM_MAP") =? 0) = true)
      by (apply realm_map_test; reflexivity).
    rewrite E. unfold obuf_append_str, set_obuf, set_room; cbn [obuf].
    rewrite append_str_data, exited_fmt_cstr; reflexivity.
  - intros rest new Hb Hr Hn. rewrite Hn, Hb, mapper_prefix_test.
    assert (Hrest : cstr rest = rest).
    { apply cstr_id. intros Hin. apply (cstr_no_nul (body p)).
      rewrite Hb. apply in_or_app; right; exact Hin. }
    assert (E : (strcmp (bs "BAT_MAPPER;;" ++ rest)
                   (bs "BAT_MAPPER;;REALM_MAP") =? 0) = false).
    { destruct (strcmp _ _ =? 0) eqn:E; [|reflexivity].
      apply realm_map_test in E. congruence. }
    rewrite E. unfold obuf_append_str, set_obuf, set_room; cbn [obuf room].
    rewrite append_str_data. repeat split.
    + intros Hroom; rewrite Hroom, entered_fmt_cstr; reflexivity.
    + intros old Hroom Ha; rewrite Hroom.
      apply strcmp_neqb in Ha; rewrite Ha; cbn [negb].
      rewrite entered_fmt_cstr; reflexivity.
    + intros old Hroom Ha; rewrite Hroom.
      apply strcmp_eqb in Ha; rewrite Ha; cbn [negb].
      rewrite moved_fmt_cstr; reflexivity.
Qed.

(** C3.  The mapper tag (code 99) whose payload goes to the decoder (the
    prefix is there and the body is not the [REALM_MAP] one).  When the
    decoder returns a room, the stored room becomes that room; the call of
    [room_free] on the previous one has no other effect on the session.
    When the decoder fails, the stored room and the output are unchanged. *)
Theorem mapper_decode_update (p : bc_parser) (t : bc_tag) (rgb0 : Z)
  (rest : list byte) :
  tag p = Some t -> code t = 99 ->
  cstr (body p) = bs "BAT_MAPPER;;" ++ rest -> rest <> bs "REALM_MAP" ->
  exists p',
    on_close rgb_to_xterm room_new p rgb0 = Some p'
    /\ (forall new, room_new (cstr (body p)) = Some new ->
        room (data p') = Some new)
    /\ (room_new (cstr (body p)) = None ->
        room (data p') = room (data p) /\ output p' = output p).
Proof.
  intros Ht Hc Hb Hr.
  destruct (on_close_render p t rgb0 Ht) as (p' & Hp' & _ & Ho & Hroom & _).
  exists p'; split; [exact Hp'|].
  unfold output in *. rewrite Ho, Hroom, Hc. cbn [render].
  assert (Hrest : cstr rest = rest).
  { apply cstr_id. intros Hin. apply (cstr_no_nul (body p)).
    rewrite Hb. apply in_or_app; right; exact Hin. }
  assert (E : (strcmp (bs "BAT_MAPPER;;" ++ rest)
                 (bs "BAT_MAPPER;;REALM_MAP") =? 0) = false).
  { destruct (strcmp _ _ =? 0) eqn:E; [|reflexivity].
    apply realm_map_test in E. congruence. }
  split.
  - intros new Hn. rewrite Hn, Hb, mapper_prefix_test, E. reflexivity.
  - intros Hn. rewrite Hn, Hb, mapper_prefix_test, E. split; reflexivity.
Qed.

Lemma color_fmt_cstr (is_fg : bool) (rgb : Z) (tmpstr : list byte) :
  cstr (color_fmt rgb_to_xterm is_fg rgb tmpstr)
  = color_fmt rgb_to_xterm is_fg rgb tmpstr.
Proof. apply cstr_id; unfold color_fmt, fmt_s, ESC; no_nul. Qed.

(** C4, as the code has it.  The colour tags (codes 20 and 21) with an
    argument string: the output is the escape [ESC\[38;5;Nm] (code 20) or
    [ESC\[48;5;Nm] (code 21), then the body up to its first NUL byte (the
    whole body when it has none), then the reset [ESC\[0m], where N is the
    palette index of an RGB value.  That value is the one [sscanf] converts
    from the argument when it converts one, the number the digits denote
    for an argument of six hexadecimal digits; no argument makes the render
    fail. *)
Theorem color_render (p : bc_parser) (t : bc_tag) (rgb0 : Z) (a : list byte) :
  tag p = Some t -> code t = 20 \/ code t = 21 ->
  argstr (data p) = Some a ->
  exists p' rgb,
    on_close rgb_to_xterm room_new p rgb0 = Some p'
    /\ output p'
       = output p ++ ESC ++ bs "[" ++ bs (if code t =? 20 then "3" else "4")
           ++ bs "8;5;" ++ fmt_u (rgb_to_xterm rgb) ++ bs "m"
           ++ cstr (body p) ++ ESC ++ bs "[0m"
    /\ (forall v, sscanf_6x a = Some v -> rgb = v)
    /\ (List.length (cstr a) = 6%nat -> all_hex (cstr a) = true ->
        rgb = hexnum (cstr a)).
Proof.
  intros Ht Hc Ha.
  destruct (on_close_render p t rgb0 Ht) as (p' & Hp' & _ & Ho & _).
  exists p', (match sscanf_6x a with Some v => v | None => rgb0 end).
  split; [exact Hp'|]. split; [|split].
  - unfold output in *. rewrite Ho.
    destruct Hc as [Hc|Hc]; rewrite Hc; cbn [render Z.eqb Pos.eqb];
      rewrite Ha; unfold obuf_append_str, set_obuf; cbn [obuf];
      rewrite append_str_data, color_fmt_cstr; unfold color_fmt, fmt_s, body;
      rewrite cstr_idem; reflexivity.
  - intros v Hv; rewrite Hv; reflexivity.
  - intros Hl Hh. rewrite sscanf_6x_hex; auto.
    + intros E; rewrite E in Hl; discriminate.
    + rewrite Hl; auto.
Qed.

(** The bytes a dispatch writes: the output of the switch run on an empty
    output buffer. *)
Lemma render_appends (c : Z) (tmpstr : list byte) (rgb0 : Z) (st : proxy_state) :
  Buffer.data (obuf (render rgb_to_xterm room_new c tmpstr rgb0 st))
  = Buffer.data (obuf st)
    ++ Buffer.data
         (obuf (render rgb_to_xterm room_new c tmpstr rgb0
                  (set_obuf st {| Buffer.data := [] |}))).
Proof.
  destruct (known_code c) eqn:K.
  - apply existsb_exists in K as (k & Hin & Hk). apply Z.eqb_eq in Hk; subst k.
    simpl in Hin.
    repeat (destruct Hin as [<-|Hin]; [|]); try contradiction;
      cbn [render Z.eqb Pos.eqb]; cbn [argstr tmpbuf room set_obuf];
      repeat match goal with
             | |- context [match ?o with Some _ => _ | None => _ end] => destruct o
             | |- context [if ?b then _ else _] => destruct b
             end;
      unfold obuf_append_str, obuf_append_buf, set_obuf, set_room; cbn [obuf tmpbuf];
      repeat (first [rewrite append_str_data | rewrite append_buf_data]);
      cbn [Buffer.data obuf app];
      rewrite ?app_nil_r, <- ?app_assoc; reflexivity.
  - rewrite !render_unknown by exact K.
    unfold obuf_append, set_obuf; cbn [obuf].
    rewrite !append_all_data. reflexivity.
Qed.

(** C5, as the code has it.  For every known tag code, two dispatches
    with the same argument (presence and value) and the same body append
    the same bytes, whatever the output buffers hold and, for every code
    but 99, whatever the stored rooms are; for the mapper code 99 the
    stored room is part of what the bytes depend on.  For the colour codes
    the argument is one [sscanf] converts. *)
Theorem dispatch_deterministic (c : Z) (st1 st2 : proxy_state) (j1 j2 : Z) :
  known_code c = true ->
  argstr st1 = argstr st2 -> tmpbuf st1 = tmpbuf st2 ->
  (c = 99 -> room st1 = room st2) ->
  (c = 20 \/ c = 21 ->
   forall a, argstr st1 = Some a -> sscanf_6x a <> None) ->
  exists p1' p2' d,
    on_close rgb_to_xterm room_new (mk_parser c st1) j1 = Some p1'
    /\ on_close rgb_to_xterm room_new (mk_parser c st2) j2 = Some p2'
    /\ output p1' = Buffer.data (obuf st1) ++ d
    /\ output p2' = Buffer.data (obuf st2) ++ d.
Proof.
  intros K Ha Hb Hroom Hscan.
  destruct (on_close_render (mk_parser c st1) _ j1 eq_refl)
    as (p1' & Hp1 & _ & Ho1 & _).
  destruct (on_close_render (mk_parser c st2) _ j2 eq_refl)
    as (p2' & Hp2 & _ & Ho2 & _).
  exists p1', p2'.
  exists (Buffer.data (obuf (render rgb_to_xterm room_new c
                              (cstr (Buffer.data (tmpbuf st1))) j1
                              (set_obuf st1 {| Buffer.data := [] |})))).
  split; [exact Hp1|]. split; [exact Hp2|].
  unfold output, body in *. cbn [data code mk_parser] in Ho1, Ho2.
  rewrite Ho1, Ho2. split; [apply render_appends|].
  rewrite render_appends. f_equal.
  destruct st1 as [o1 b1 a1 r1], st2 as [o2 b2 a2 r2].
  cbn [argstr tmpbuf room] in Ha, Hb, Hroom, Hscan. subst a2 b2.
  apply existsb_exists in K as (k & Hin & Hk). apply Z.eqb_eq in Hk; subst k.
  simpl in Hin.
  repeat (destruct Hin as [<-|Hin]; [|]); try contradiction;
    cbn [render Z.eqb Pos.eqb set_obuf argstr tmpbuf room obuf];
    try rewrite (Hroom eq_refl);
    try (destruct a1 as [a|]; [|reflexivity]);
    try (assert (Hs : sscanf_6x a <> None) by (apply Hscan; auto);
         destruct (sscanf_6x a); [|contradiction]);
    repeat match goal with
           | |- context [if ?b then _ else _] => destruct b
           end;
    reflexivity.
Qed.

(** C6, as the code has it.  A tag whose code has no case of its own
    appends [\[unknown tag ], the code in decimal, [\]], the body up to its
    first NUL byte (the whole body when it has none) and a newline. *)
Theorem unknown_tag_render (p : bc_parser) (t : bc_tag) (rgb0 : Z) :
  tag p = Some t -> known_code (code t) = false ->
  exists p',
    on_close rgb_to_xterm room_new p rgb0 = Some p'
    /\ output p'
       = output p ++ bs "[unknown tag " ++ fmt_d (code t) ++ bs "]"
           ++ cstr (body p) ++ NL.
Proof.
  intros Ht K.
  destruct (on_close_render p t rgb0 Ht) as (p' & Hp' & _ & Ho & _).
  exists p'; split; [exact Hp'|].
  unfold output in *. rewrite Ho, render_unknown by exact K.
  unfold obuf_append, set_obuf; cbn [obuf]. rewrite append_all_data.
  unfold unknown_fmt, fmt_s. rewrite cstr_idem. reflexivity.
Qed.

(** C7.  [on_open] with a pending body or argument performs the close of
    [on_close] once, on the tag the parser holds: its result is that of one
    call of [on_close], the output grows by the bytes of one run of the
    switch on the pending body, and nothing is pending afterwards.  With
    nothing pending [on_open] changes nothing. *)
Theorem open_closes_pending_once (p : bc_parser) (t : bc_tag) (rgb0 : Z) :
  tag p = Some t ->
  (body p <> [] \/ argstr (data p) <> None ->
   on_open rgb_to_xterm room_new p rgb0
   = on_close rgb_to_xterm room_new p rgb0
   /\ exists p',
       on_open rgb_to_xterm room_new p rgb0 = Some p'
       /\ output p'
          = output p
            ++ Buffer.data
                 (obuf (render rgb_to_xterm room_new (code t)
                          (cstr (body p)) rgb0
                          (set_obuf (data p) {| Buffer.data := [] |})))
       /\ body p' = [] /\ argstr (data p') = None)
  /\ (body p = [] -> argstr (data p) = None ->
      on_open rgb_to_xterm room_new p rgb0 = Some p).
Proof.
  intros Ht. unfold on_open, body, Buffer.len. split.
  - intros Hpend.
    assert (E : ((0 <? List.length (Buffer.data (tmpbuf (data p))))%nat
                 || match argstr (data p) with Some _ => true | None => false end)
                = true).
    { destruct Hpend as [H|H].
      - destruct (Buffer.data (tmpbuf (data p))); [congruence | reflexivity].
      - destruct (argstr (data p)); [apply orb_true_r | congruence]. }
    rewrite E. split; [reflexivity|].
    destruct (on_close_render p t rgb0 Ht) as (p' & Hp' & _ & Ho & _ & Hb & Ha).
    exists p'. split; [exact Hp'|].
    unfold output, body in *. rewrite Ho, Hb, Ha, <- render_appends. auto.
  - intros Hb Ha. rewrite Hb, Ha. reflexivity.
Qed.

(** C8.  After [on_close], whatever the tag code and the branch taken, the
    scratch buffer has length zero and there is no argument string. *)
Theorem close_resets (p : bc_parser) (t : bc_tag) (rgb0 : Z) :
  tag p = Some t ->
  exists p',
    on_close rgb_to_xterm room_new p rgb0 = Some p'
    /\ Buffer.len (tmpbuf (data p')) = 0%nat
    /\ argstr (data p') = None.
Proof.
  intros Ht.
  destruct (on_close_render p t rgb0 Ht) as (p' & Hp' & _ & _ & _ & Hb & Ha).
  exists p'. rewrite Hb. auto.
Qed.

(** C9.  The connection-status tags (5, 6), the screen-clear tag (11) and
    the status tags (40, 41, 42, 50, 51, 52, 53, 54, 60) leave the output
    buffer as it was. *)
Theorem silent_tags (p : bc_parser) (t : bc_tag) (rgb0 : Z) :
  tag p = Some t ->
  In (code t) [5; 6; 11; 40; 41; 42; 50; 51; 52; 53; 54; 60] ->
  exists p',
    on_close rgb_to_xterm room_new p rgb0 = Some p'
    /\ obuf (data p') = obuf (data p).
Proof.
  intros Ht Hin.
  destruct (on_close_render p t rgb0 Ht) as (p' & Hp' & _ & Ho & _).
  exists p'; split; [exact Hp'|]. rewrite Ho.
  simpl in Hin.
  repeat (destruct Hin as [<-|Hin]; [reflexivity|]). contradiction.
Qed.

(** C10.  A colour tag (20 or 21) without an argument string writes
    nothing: the output buffer is unchanged and the body is dropped. *)
Theorem color_without_argument (p : bc_parser) (t : bc_tag) (rgb0 : Z) :
  tag p = Some t -> code t = 20 \/ code t = 21 ->
  argstr (data p) = None ->
  exists p',
    on_close rgb_to_xterm room_new p rgb0 = Some p'
    /\ obuf (data p') = obuf (data p) /\ body p' = [].
Proof.
  intros Ht Hc Ha.
  destruct (on_close_render p t rgb0 Ht) as (p' & Hp' & _ & Ho & _ & Hb & _).
  exists p'; split; [exact Hp'|]. unfold body. rewrite Ho, Hb.
  destruct Hc as [Hc|Hc]; rewrite Hc; cbn [render]; rewrite Ha; auto.
Qed.

End Dispatch.

(** * Concrete runs *)

(** The events of one typed message, [chan] as argument and [hi] as body,
    after a line of plain text. *)
Example typed_message_events :
  let p0 := {| tag := Some {| code := 10 |}; data := proxy_state_new |} in
  let p1 := on_text p0 (bs "> ") 2 in
  let p2 := on_tag_text p1 (bs "chan") 4 in
  let p3 := on_arg_end p2 in
  let p4 := on_tag_text p3 (bs "hi") 2 in
  argstr (data p3) = Some (bs "chan" ++ [x00])
  /\ option_map output (on_close sample_palette no_room p4 0)
     = Some (bs "> chan: hi").
Proof.
  cbv zeta. split; reflexivity.
Qed.

(** The argument [on_arg_end] stores reads, as a C string, as the body
    before it did. *)
Lemma on_arg_end_argstr (p : bc_parser) :
  exists a, argstr (data (on_arg_end p)) = Some a
            /\ cstr a = cstr (body p) /\ body (on_arg_end p) = [].
Proof.
  eexists; split; [reflexivity|]. split; [|reflexivity].
  apply (cstr_app_nul (body p) []).
Qed.

Lemma typed_message_render_witness :
  tag p_prompt = Some {| code := 10 |}
  /\ (exists p', on_close sample_palette no_room p_prompt 0 = Some p'
                 /\ output p' = bs "> hp:10" ++ [xff; xf9])
  /\ (exists p', on_close sample_palette no_room p_nomap 0 = Some p'
                 /\ output p' = bs "> ")
  /\ (exists p', on_close sample_palette no_room p_chan 0 = Some p'
                 /\ output p' = bs "> chan: hi")
  /\ (exists p', on_close sample_palette no_room p_plain 0 = Some p'
                 /\ output p' = bs "> hi").
Proof.
  split; [reflexivity|]. repeat split.
  - destruct (typed_message_render sample_palette no_room p_prompt _ 0
                eq_refl eq_refl) as (p' & H & H1 & _).
    exists p'; split; [exact H|]. exact (H1 _ eq_refl eq_refl).
  - destruct (typed_message_render sample_palette no_room p_nomap _ 0
                eq_refl eq_refl) as (p' & H & _ & H2 & _).
    exists p'; split; [exact H|]. exact (H2 _ eq_refl eq_refl eq_refl).
  - destruct (typed_message_render sample_palette no_room p_chan _ 0
                eq_refl eq_refl) as (p' & H & _ & _ & H3 & _).
    exists p'; split; [exact H|].
    apply (H3 _ eq_refl); discriminate.
  - destruct (typed_message_render sample_palette no_room p_plain _ 0
                eq_refl eq_refl) as (p' & H & _ & _ & _ & H4).
    exists p'; split; [exact H|]. exact (H4 eq_refl).
Defined.

Lemma mapper_render_witness :
  tag p_realm = Some {| code := 99 |}
  /\ (exists p', on_close sample_palette sample_room_new p_realm 0 = Some p'
                 /\ output p' = bs "> Exited to map from A." ++ NL)
  /\ (exists p', on_close sample_palette sample_room_new p_first 0 = Some p'
                 /\ output p' = bs "> Entered area A with direction north" ++ NL)
  /\ (exists p', on_close sample_palette sample_room_new p_other 0 = Some p'
                 /\ output p' = bs "> Entered area A with direction north" ++ NL)
  /\ (exists p', on_close sample_palette sample_room_new p_same 0 = Some p'
                 /\ output p' = bs "> Moved (r1) --north-> (r2)" ++ NL).
Proof.
  split; [reflexivity|]. repeat split.
  - destruct (mapper_render sample_palette sample_room_new p_realm _ 0
                eq_refl eq_refl) as (p' & H & H1 & _).
    exists p'; split; [exact H|]. exact (H1 eq_refl).
  - destruct (mapper_render sample_palette sample_room_new p_first _ 0
                eq_refl eq_refl) as (p' & H & _ & H2).
    exists p'; split; [exact H|].
    destruct (H2 (bs "Ar2") _ eq_refl ltac:(discriminate) eq_refl) as (H3 & _).
    exact (H3 eq_refl).
  - destruct (mapper_render sample_palette sample_room_new p_other _ 0
                eq_refl eq_refl) as (p' & H & _ & H2).
    exists p'; split; [exact H|].
    destruct (H2 (bs "Ar2") _ eq_refl ltac:(discriminate) eq_refl) as (_ & H3 & _).
    apply (H3 _ eq_refl); discriminate.
  - destruct (mapper_render sample_palette sample_room_new p_same _ 0
                eq_refl eq_refl) as (p' & H & _ & H2).
    exists p'; split; [exact H|].
    destruct (H2 (bs "Ar2") _ eq_refl ltac:(discriminate) eq_refl) as (_ & _ & H3).
    exact (H3 _ eq_refl eq_refl).
Defined.

Lemma mapper_decode_update_witness :
  tag p_same = Some {| code := 99 |}
  /\ cstr (body p_same) = bs "BAT_MAPPER;;" ++ bs "Ar2"
  /\ (exists p', on_close sample_palette sample_room_new p_same 0 = Some p'
                 /\ room (data p')
                    = Some {| Room.id := bs "r2"; Room.area := bs "A";
                              Room.direction := bs "north" |})
  /\ (exists p', on_close sample_palette no_room p_same 0 = Some p'
                 /\ room (data p') = Some room_a1 /\ output p' = bs "> ").
Proof.
  split; [reflexivity|]. split; [reflexivity|]. split.
  - destruct (mapper_decode_update sample_palette sample_room_new p_same _ 0
                (bs "Ar2") eq_refl eq_refl eq_refl ltac:(discriminate))
      as (p' & H & H1 & _).
    exists p'; split; [exact H|]. exact (H1 _ eq_refl).
  - destruct (mapper_decode_update sample_palette no_room p_same _ 0
                (bs "Ar2") eq_refl eq_refl eq_refl ltac:(discriminate))
      as (p' & H & _ & H2).
    exists p'; split; [exact H|]. exact (H2 eq_refl).
Defined.

(** C4 as stated fails on a body with a NUL byte: the escape wraps only
    the bytes before it. *)
Lemma color_render_counterexample :
  exists p',
    on_close sample_palette no_room p_red_nul 0 = Some p'
    /\ output p' = bs "> " ++ ESC ++ bs "[38;5;196ma" ++ ESC ++ bs "[0m"
    /\ output p'
       <> output p_red_nul ++ ESC ++ bs "[38;5;"
            ++ fmt_u (sample_palette (hexnum (bs "ff0000"))) ++ bs "m"
            ++ body p_red_nul ++ ESC ++ bs "[0m".
Proof.
  eexists; split; [reflexivity|]. split; [reflexivity|].
  vm_compute; discriminate.
Qed.

Lemma color_render_witness :
  tag (p_red 20) = Some {| code := 20 |}
  /\ argstr (data (p_red 20)) = Some (bs "ff0000" ++ [x00])
  /\ (exists p', on_close sample_palette no_room (p_red 20) 0 = Some p'
                 /\ output p' = bs "> " ++ ESC ++ bs "[38;5;196mred" ++ ESC ++ bs "[0m")
  /\ (exists p', on_close sample_palette no_room (p_red 21) 0 = Some p'
                 /\ output p' = bs "> " ++ ESC ++ bs "[48;5;196mred" ++ ESC ++ bs "[0m").
Proof.
  split; [reflexivity|]. split; [reflexivity|]. split.
  - destruct (color_render sample_palette no_room (p_red 20) _ 0 _
                eq_refl (or_introl eq_refl) eq_refl) as (p' & rgb & H & Ho & _ & Hr).
    exists p'; split; [exact H|].
    rewrite Ho, (Hr eq_refl eq_refl). reflexivity.
  - destruct (color_render sample_palette no_room (p_red 21) _ 0 _
                eq_refl (or_intror eq_refl) eq_refl) as (p' & rgb & H & Ho & _ & Hr).
    exists p'; split; [exact H|].
    rewrite Ho, (Hr eq_refl eq_refl). reflexivity.
Defined.

(** C5 as stated fails on the mapper tag: with the same code, argument and
    body, the bytes written depend on the stored room. *)
Lemma dispatch_deterministic_counterexample :
  let st1 := mk_state [] (bs "BAT_MAPPER;;REALM_MAP") None None in
  let st2 := mk_state [] (bs "BAT_MAPPER;;REALM_MAP") None (Some room_b7) in
  known_code 99 = true
  /\ argstr st1 = argstr st2 /\ tmpbuf st1 = tmpbuf st2 /\ obuf st1 = obuf st2
  /\ exists p1' p2',
       on_close sample_palette no_room (mk_parser 99 st1) 0 = Some p1'
       /\ on_close sample_palette no_room (mk_parser 99 st2) 0 = Some p2'
       /\ output p1' = bs "Exited to map from (unknown)." ++ NL
       /\ output p2' = bs "Exited to map from B." ++ NL
       /\ output p1' <> output p2'.
Proof.
  cbv zeta. repeat (split; [reflexivity|]).
  eexists; eexists. repeat (split; [reflexivity|]).
  vm_compute; discriminate.
Qed.

Lemma dispatch_deterministic_witness :
  let st1 := mk_state (bs "> ") (bs "red") (Some (bs "ff0000" ++ [x00])) None in
  let st2 := mk_state [] (bs "red") (Some (bs "ff0000" ++ [x00])) (Some room_b7) in
  known_code 20 = true
  /\ exists p1' p2' d,
       on_close sample_palette no_room (mk_parser 20 st1) 0 = Some p1'
       /\ on_close sample_palette no_room (mk_parser 20 st2) 7 = Some p2'
       /\ output p1' = bs "> " ++ d /\ output p2' = d.
Proof.
  cbv zeta. split; [reflexivity|].
  apply (dispatch_deterministic sample_palette no_room 20
           (mk_state (bs "> ") (bs "red") (Some (bs "ff0000" ++ [x00])) None)
           (mk_state [] (bs "red") (Some (bs "ff0000" ++ [x00])) (Some room_b7))
           0 7).
  - reflexivity.
  - reflexivity.
  - reflexivity.
  - discriminate.
  - intros _ a Ha. injection Ha as <-. vm_compute. discriminate.
Defined.

(** C6 as stated fails on a body with a NUL byte: the bytes after it are
    not written. *)
Lemma unknown_tag_render_counterexample :
  known_code 77 = false
  /\ exists p',
       on_close sample_palette no_room p_unknown_nul 0 = Some p'
       /\ output p' = bs "> [unknown tag 77]he" ++ NL
       /\ output p'
          <> output p_unknown_nul ++ bs "[unknown tag " ++ fmt_d 77 ++ bs "]"
               ++ body p_unknown_nul ++ NL.
Proof.
  split; [reflexivity|].
  eexists; split; [reflexivity|]. split; [reflexivity|].
  vm_compute; discriminate.
Qed.

Lemma unknown_tag_render_witness :
  tag p_unknown = Some {| code := 77 |}
  /\ known_code 77 = false
  /\ exists p', on_close sample_palette no_room p_unknown 0 = Some p'
                /\ output p' = bs "> [unknown tag 77]hello" ++ NL.
Proof.
  split; [reflexivity|]. split; [reflexivity|].
  exact (unknown_tag_render sample_palette no_room p_unknown _ 0 eq_refl eq_refl).
Defined.

Lemma open_closes_pending_once_witness :
  tag p_prots = Some {| code := 64 |}
  /\ body p_prots <> []
  /\ on_open sample_palette no_room p_prots 0
     = on_close sample_palette no_room p_prots 0
  /\ exists p', on_open sample_palette no_room p_prots 0 = Some p'
                /\ output p' = bs "> [prots]shield" ++ NL
                /\ body p' = [] /\ argstr (data p') = None.
Proof.
  assert (Hne : body p_prots <> []) by discriminate.
  split; [reflexivity|]. split; [exact Hne|].
  destruct (open_closes_pending_once sample_palette no_room p_prots _ 0 eq_refl)
    as (H & _).
  destruct (H (or_introl Hne)) as (He & p' & Hp & Ho & Hb & Ha).
  split; [exact He|].
  exists p'. split; [exact Hp|]. split; [|split; assumption].
  rewrite Ho. vm_compute. reflexivity.
Defined.

Lemma close_resets_witness :
  tag p_chan = Some {| code := 10 |}
  /\ exists p', on_close sample_palette no_room p_chan 0 = Some p'
                /\ Buffer.len (tmpbuf (data p')) = 0%nat
                /\ argstr (data p') = None.
Proof.
  split; [reflexivity|].
  exact (close_resets sample_palette no_room p_chan _ 0 eq_refl).
Defined.

Lemma silent_tags_witness :
  tag p_status = Some {| code := 50 |}
  /\ In 50 [5; 6; 11; 40; 41; 42; 50; 51; 52; 53; 54; 60]
  /\ exists p', on_close sample_palette no_room p_status 0 = Some p'
                /\ obuf (data p') = {| Buffer.data := bs "> " |}.
Proof.
  split; [reflexivity|]. split; [simpl; tauto|].
  apply (silent_tags sample_palette no_room p_status _ 0 eq_refl).
  simpl; tauto.
Defined.

Lemma color_without_argument_witness :
  tag p_color_noarg = Some {| code := 21 |}
  /\ argstr (data p_color_noarg) = None
  /\ exists p', on_close sample_palette no_room p_color_noarg 0 = Some p'
                /\ obuf (data p') = {| Buffer.data := bs "> " |}
                /\ body p' = [].
Proof.
  split; [reflexivity|]. split; [reflexivity|].
  exact (color_without_argument sample_palette no_room p_color_noarg _ 0
           eq_refl (or_intror eq_refl) eq_refl).
Defined.

(** * Further properties of the callbacks *)

(** ** More on C strings and on the scanner *)

Lemma firstn_strlen (s : list byte) : firstn (strlen s) s = cstr s.
Proof.
  unfold strlen. induction s as [|c s IH]; simpl; [reflexivity|].
  destruct (Byte.eqb c x00); simpl; [reflexivity | f_equal; exact IH].
Qed.

(** [strncmp] returns zero only when the two C strings agree on their
    first [n] bytes. *)
Lemma strncmp_zero_firstn (n : nat) :
  forall a b, strncmp a b n = 0 -> firstn n (cstr a) = firstn n (cstr b).
Proof.
  induction n as [|n IH]; intros a b H; [reflexivity|].
  destruct a as [|x a], b as [|y b]; simpl in H |- *.
  - reflexivity.
  - assert (Hy : byte_val y = 0) by lia.
    apply byte_val_zero in Hy; subst y; reflexivity.
  - apply byte_val_zero in H; subst x; reflexivity.
  - destruct (Byte.eqb x y) eqn:E.
    + apply Byte.byte_dec_bl in E; subst y.
      destruct (Byte.eqb x x00); [reflexivity|].
      simpl; f_equal; apply IH; exact H.
    + exfalso. apply Byte.eqb_false in E. apply E, byte_val_inj. lia.
Qed.

Lemma strcmp_eqb_cstr (a a' x : list byte) :
  cstr a = cstr a' -> (strcmp a x =? 0) = (strcmp a' x =? 0).
Proof.
  intros H.
  destruct (strcmp a x =? 0) eqn:E1, (strcmp a' x =? 0) eqn:E2;
    try reflexivity.
  - apply strcmp_eqb in E1. apply strcmp_neqb in E2. congruence.
  - apply strcmp_neqb in E1. apply strcmp_eqb in E2. congruence.
Qed.

Lemma sscanf_6x_cstr (a a' : list byte) :
  cstr a = cstr a' -> sscanf_6x a = sscanf_6x a'.
Proof.
  unfold sscanf_6x; intros H; rewrite H; reflexivity.
Qed.

Lemma all_hex_no_nul (d : list byte) : all_hex d = true -> ~ In x00 d.
Proof.
  induction d as [|c d IH]; simpl; intros H; [tauto|].
  apply andb_prop in H as [Hc Hd].
  intros [E|E]; [subst c; discriminate Hc | exact (IH Hd E)].
Qed.

(** A full field of digits is read whatever follows it. *)
Lemma scan_hex_exact (d r : list byte) :
  forall acc k, all_hex d = true ->
    scan_hex (List.length d) (d ++ r) acc k
    = (fold_left (fun a c => a * 16 + hexdigit c) d acc, (k + List.length d)%nat).
Proof.
  induction d as [|c d IH]; intros acc k Hh.
  - simpl; f_equal; lia.
  - simpl in Hh. apply andb_prop in Hh as [Hc Hd].
    simpl. unfold is_hex in Hc. unfold hexdigit at 2.
    destruct (hexval c) as [v|]; [|discriminate].
    rewrite IH by exact Hd. f_equal; lia.
Qed.

(** [%6x] converts six digits and ignores what follows them. *)
Lemma sscanf_6x_six (d rest : list byte) :
  List.length d = 6%nat -> all_hex d = true ->
  sscanf_6x (d ++ rest) = Some (hexnum d).
Proof.
  intros Hl Hh. unfold sscanf_6x.
  rewrite cstr_app by (apply all_hex_no_nul; exact Hh).
  destruct d as [|c [|c1 d]]; try discriminate Hl.
  pose proof Hh as Hh'. simpl in Hh'.
  apply andb_prop in Hh' as [Hc Hd]. apply andb_prop in Hd as [Hc1 Hd].
  destruct (hex_not_special c Hc) as (Hsp & Hp & Hm & _).
  destruct (hex_not_special c1 Hc1) as (_ & _ & _ & Hx & HX).
  simpl app. simpl skip_space. rewrite Hsp, Hp, Hm.
  unfold scan_hex_body. simpl has_0x. rewrite Hx, HX.
  rewrite andb_false_r, andb_false_r.
  change (c :: c1 :: d ++ cstr rest) with ((c :: c1 :: d) ++ cstr rest).
  rewrite <- Hl at 1. rewrite scan_hex_exact by exact Hh.
  rewrite Hl. reflexivity.
Qed.

(** ** The remaining cases of the switch *)

Section Callbacks.

Variable rgb_to_xterm : Z -> Z.
Variable room_new : list byte -> option Room.room.

(** The style tags (22, 23, 24, 25) and the link tag (31) write the body
    as it is, every byte of it, NUL bytes included. *)
Theorem passthrough_tags (p : bc_parser) (t : bc_tag) (rgb0 : Z) :
  tag p = Some t -> In (code t) [22; 23; 24; 25; 31] ->
  exists p',
    on_close rgb_to_xterm room_new p rgb0 = Some p'
    /\ output p' = output p ++ body p.
Proof.
  intros Ht Hin.
  destruct (on_close_render rgb_to_xterm room_new p t rgb0 Ht)
    as (p' & Hp' & _ & Ho & _).
  exists p'; split; [exact Hp'|]. unfold output, body in *. rewrite Ho.
  simpl in Hin.
  repeat (destruct Hin as [<-|Hin];
          [cbn [render]; unfold obuf_append_buf, set_obuf; cbn [obuf];
           apply append_buf_data|]).
  contradiction.
Qed.

(** The protection tag (64) and the target tag (70) write a label, the
    whole body and a newline. *)
Theorem labelled_tags (p : bc_parser) (t : bc_tag) (rgb0 : Z) :
  tag p = Some t ->
  exists p',
    on_close rgb_to_xterm room_new p rgb0 = Some p'
    /\ (code t = 64 -> output p' = output p ++ bs "[prots]" ++ body p ++ NL)
    /\ (code t = 70 -> output p' = output p ++ bs "[target]" ++ body p ++ NL).
Proof.
  intros Ht.
  destruct (on_close_render rgb_to_xterm room_new p t rgb0 Ht)
    as (p' & Hp' & _ & Ho & _).
  exists p'; split; [exact Hp'|]. unfold output, body in *. rewrite Ho.
  split; intros Hc; rewrite Hc; cbn [render];
    unfold obuf_append_str, obuf_append_buf, set_obuf; cbn [obuf tmpbuf];
    rewrite append_str_data, append_buf_data, append_str_data, <- !app_assoc;
    reflexivity.
Qed.

(** A typed message with the argument [spec_map] never gets a label: it
    is dropped when the body, read as a C string, is [NoMapSupport], and is
    the bare body otherwise. *)
Theorem spec_map_body (p : bc_parser) (t : bc_tag) (rgb0 : Z) (a : list byte) :
  tag p = Some t -> code t = 10 ->
  argstr (data p) = Some a -> cstr a = bs "spec_map" ->
  exists p',
    on_close rgb_to_xterm room_new p rgb0 = Some p'
    /\ (cstr (body p) = bs "NoMapSupport" -> output p' = output p)
    /\ (cstr (body p) <> bs "NoMapSupport" -> output p' = output p ++ body p).
Proof.
  intros Ht Hc Ha Hs.
  destruct (on_close_render rgb_to_xterm room_new p t rgb0 Ht)
    as (p' & Hp' & _ & Ho & _).
  exists p'; split; [exact Hp'|]. unfold output in *. rewrite Ho, Hc.
  cbn [render]. rewrite Ha.
  assert (E1 : (strcmp a (bs "spec_prompt") =? 0) = false)
    by (apply strcmp_neqb; rewrite Hs; discriminate).
  assert (E2 : (strcmp a (bs "spec_map") =? 0) = true)
    by (apply strcmp_eqb; rewrite Hs; reflexivity).
  rewrite E1, E2. split; intros Hb.
  - assert (E3 : (strcmp (cstr (body p)) (bs "NoMapSupport") =? 0) = true)
      by (apply strcmp_eqb; rewrite cstr_idem, Hb; reflexivity).
    rewrite E3; reflexivity.
  - assert (E3 : (strcmp (cstr (body p)) (bs "NoMapSupport") =? 0) = false)
      by (apply strcmp_neqb; rewrite cstr_idem; exact Hb).
    rewrite E3. unfold obuf_append_buf, set_obuf; cbn [obuf].
    apply append_buf_data.
Qed.

(** A mapper tag (99) whose body does not start with [BAT_MAPPER;;]
    writes nothing and keeps the stored room. *)
Theorem mapper_without_prefix (p : bc_parser) (t : bc_tag) (rgb0 : Z) :
  tag p = Some t -> code t = 99 ->
  firstn 12 (cstr (body p)) <> bs "BAT_MAPPER;;" ->
  exists p',
    on_close rgb_to_xterm room_new p rgb0 = Some p'
    /\ obuf (data p') = obuf (data p) /\ room (data p') = room (data p).
Proof.
  intros Ht Hc Hpre.
  destruct (on_close_render rgb_to_xterm room_new p t rgb0 Ht)
    as (p' & Hp' & _ & Ho & Hr & _).
  exists p'; split; [exact Hp'|]. rewrite Ho, Hr, Hc. cbn [render].
  assert (E : (strncmp (cstr (body p)) (bs "BAT_MAPPER;;")
                 (strlen (bs "BAT_MAPPER;;")) =? 0) = false).
  { apply Z.eqb_neq. intros H. apply strncmp_zero_firstn in H.
    rewrite cstr_idem in H. apply Hpre. exact H. }
  rewrite E. split; reflexivity.
Qed.

(** Leaving to the overview map forgets the stored room: after the body
    [BAT_MAPPER;;REALM_MAP] no room is stored, and the next payload the
    decoder accepts is announced with [Entered area], whatever its area. *)
Theorem realm_map_forgets_room (p : bc_parser) (t : bc_tag) (rgb0 : Z) :
  tag p = Some t -> code t = 99 ->
  cstr (body p) = bs "BAT_MAPPER;;REALM_MAP" ->
  exists p',
    on_close rgb_to_xterm room_new p rgb0 = Some p'
    /\ room (data p') = None
    /\ forall payload rest new rgb1,
         cstr payload = bs "BAT_MAPPER;;" ++ rest ->
         rest <> bs "REALM_MAP" ->
         room_new (cstr payload) = Some new ->
         exists p'',
           on_close rgb_to_xterm room_new
             (on_tag_text p' payload (List.length payload)) rgb1 = Some p''
           /\ output p'' = output p' ++ entered_fmt new
           /\ room (data p'') = Some new.
Proof.
  intros Ht Hc Hb.
  destruct (on_close_render rgb_to_xterm room_new p t rgb0 Ht)
    as (p' & Hp' & Htag & Ho & Hr & Htb & Ha).
  exists p'; split; [exact Hp'|].
  assert (Hnone : room (data p') = None).
  { rewrite Hr, Hc. cbn [render]. rewrite Hb.
    change (bs "BAT_MAPPER;;REALM_MAP")
      with (bs "BAT_MAPPER;;" ++ bs "REALM_MAP") at 1 2.
    rewrite (mapper_prefix_test room_new).
    assert (E : (strcmp (bs "BAT_MAPPER;;" ++ bs "REALM_MAP")
                   (bs "BAT_MAPPER;;REALM_MAP") =? 0) = true)
      by (apply (realm_map_test room_new); reflexivity).
    rewrite E. reflexivity. }
  split; [exact Hnone|].
  intros payload rest new rgb1 Hpay Hrest Hnew.
  set (q := on_tag_text p' payload (List.length payload)).
  assert (Hq : tag q = Some t) by (unfold q; simpl; congruence).
  assert (Hbq : body q = payload).
  { unfold q, body, on_tag_text; simpl. rewrite Htb. simpl.
    apply firstn_all. }
  destruct (on_close_render rgb_to_xterm room_new q t rgb1 Hq)
    as (p'' & Hp'' & _ & Ho' & Hr' & _).
  exists p''; split; [exact Hp''|].
  assert (Hcs : cstr rest = rest).
  { apply cstr_id. intros Hin. apply (cstr_no_nul payload).
    rewrite Hpay. apply in_or_app; right; exact Hin. }
  assert (E : (strcmp (bs "BAT_MAPPER;;" ++ rest)
                 (bs "BAT_MAPPER;;REALM_MAP") =? 0) = false).
  { destruct (strcmp _ _ =? 0) eqn:E; [|reflexivity].
    apply (realm_map_test room_new) in E. congruence. }
  unfold output. rewrite Ho', Hr', Hc, Hbq. cbn [render].
  rewrite Hnew, Hpay, (mapper_prefix_test room_new), E.
  replace (room (data q)) with (@None Room.room)
    by (unfold q; simpl; symmetry; exact Hnone).
  unfold obuf_append_str, set_obuf, set_room; cbn [obuf room].
  rewrite append_str_data, entered_fmt_cstr. split; reflexivity.
Qed.

(** ** What a close leaves alone *)

Lemma render_room_frame (c : Z) (tmpstr : list byte) (rgb0 : Z) (st : proxy_state) :
  c <> 99 -> room (render rgb_to_xterm room_new c tmpstr rgb0 st) = room st.
Proof.
  intros Hc. destruct (known_code c) eqn:K.
  - apply existsb_exists in K as (k & Hin & Hk). apply Z.eqb_eq in Hk; subst k.
    simpl in Hin.
    repeat (destruct Hin as [<-|Hin]; [|]); try contradiction;
      try (exfalso; apply Hc; reflexivity);
      cbn [render Z.eqb Pos.eqb];
      repeat match goal with
             | |- context [match ?o with Some _ => _ | None => _ end] => destruct o
             | |- context [if ?b then _ else _] => destruct b
             end;
      reflexivity.
  - rewrite render_unknown by exact K. reflexivity.
Qed.

(** Only the mapper tag touches the stored room: a close of any other
    code, known or not, keeps it. *)
Theorem close_keeps_room (p : bc_parser) (t : bc_tag) (rgb0 : Z) :
  tag p = Some t -> code t <> 99 ->
  exists p',
    on_close rgb_to_xterm room_new p rgb0 = Some p'
    /\ room (data p') = room (data p).
Proof.
  intros Ht Hc.
  destruct (on_close_render rgb_to_xterm room_new p t rgb0 Ht)
    as (p' & Hp' & _ & _ & Hr & _).
  exists p'; split; [exact Hp'|]. rewrite Hr. apply render_room_frame, Hc.
Qed.

(** After a close, the next [on_open] finds nothing pending and changes
    nothing: a tag that was closed is not rendered a second time. *)
Theorem close_then_open_noop (p p' : bc_parser) (rgb0 rgb1 : Z) :
  on_close rgb_to_xterm room_new p rgb0 = Some p' ->
  on_open rgb_to_xterm room_new p' rgb1 = Some p'.
Proof.
  unfold on_close. destruct (tag p); [|discriminate].
  intros H; injection H as <-. reflexivity.
Qed.

(** [on_open] fails exactly when something is pending and the parser has
    no tag: the assertion of [on_close] is reached only through a pending
    body or argument. *)
Theorem on_open_abort_iff (p : bc_parser) (rgb0 : Z) :
  on_open rgb_to_xterm room_new p rgb0 = None
  <-> tag p = None /\ (body p <> [] \/ argstr (data p) <> None).
Proof.
  unfold on_open.
  destruct ((0 <? Buffer.len (tmpbuf (data p)))%nat
            || match argstr (data p) with Some _ => true | None => false end)
    eqn:E.
  - unfold on_close. destruct (tag p) as [t|].
    + split; [discriminate | intros [H _]; discriminate H].
    + split; [intros _; split; [reflexivity|] | reflexivity].
      apply orb_true_iff in E as [E|E].
      * left. unfold body, Buffer.len in *.
        destruct (Buffer.data (tmpbuf (data p))); [discriminate E | discriminate].
      * right. destruct (argstr (data p)); [discriminate | discriminate E].
  - split; [discriminate|].
    apply orb_false_iff in E as [E1 E2]. intros [_ [H|H]]; exfalso.
    + unfold body, Buffer.len in *.
      destruct (Buffer.data (tmpbuf (data p)));
        [apply H; reflexivity | discriminate E1].
    + destruct (argstr (data p)); [discriminate E2 | apply H; reflexivity].
Qed.

(** ** Chunks *)

(** A body that arrives in several [on_tag_text] calls accumulates in
    order in the scratch buffer; the output, the argument and the room are
    not touched. *)
Theorem tag_text_chunks_body (chunks : list (list byte)) :
  forall p,
    body (tag_text_chunks p chunks) = body p ++ List.concat chunks
    /\ obuf (data (tag_text_chunks p chunks)) = obuf (data p)
    /\ argstr (data (tag_text_chunks p chunks)) = argstr (data p)
    /\ room (data (tag_text_chunks p chunks)) = room (data p)
    /\ tag (tag_text_chunks p chunks) = tag p.
Proof.
  unfold tag_text_chunks.
  induction chunks as [|c cs IH]; intros p; simpl.
  - rewrite app_nil_r; repeat split.
  - destruct (IH (on_tag_text p c (List.length c))) as (Hb & Ho & Ha & Hr & Ht).
    rewrite Hb, Ho, Ha, Hr, Ht. unfold body, on_tag_text; simpl.
    rewrite firstn_all, <- app_assoc. repeat split.
Qed.

(** Plain text that arrives in several [on_text] calls reaches the output
    unchanged and in order, and a tag being assembled is not disturbed. *)
Theorem text_chunks_output (chunks : list (list byte)) :
  forall p,
    output (text_chunks p chunks) = output p ++ List.concat chunks
    /\ tmpbuf (data (text_chunks p chunks)) = tmpbuf (data p)
    /\ argstr (data (text_chunks p chunks)) = argstr (data p)
    /\ room (data (text_chunks p chunks)) = room (data p)
    /\ tag (text_chunks p chunks) = tag p.
Proof.
  unfold text_chunks.
  induction chunks as [|c cs IH]; intros p; simpl.
  - rewrite app_nil_r; repeat split.
  - destruct (IH (on_text p c (List.length c))) as (Ho & Hb & Ha & Hr & Ht).
    rewrite Ho, Hb, Ha, Hr, Ht. unfold output, on_text; simpl.
    rewrite firstn_all, <- app_assoc. repeat split.
Qed.

(** ** The argument string *)

(** A typed message as the parser delivers it: the bytes before the
    argument boundary become the label, the bytes after it the body.  With
    the argument [spec_prompt] the body is followed by 0xFF 0xF9; with an
    argument other than [spec_prompt] and [spec_map] the output is the
    argument as a C string, a colon and a space, and the body. *)
Theorem argument_then_body (p : bc_parser) (t : bc_tag) (rgb0 : Z)
  (A B : list byte) :
  tag p = Some t -> code t = 10 -> body p = [] ->
  exists p',
    on_close rgb_to_xterm room_new
      (on_tag_text (on_arg_end (on_tag_text p A (List.length A)))
         B (List.length B)) rgb0 = Some p'
    /\ (cstr A = bs "spec_prompt" -> output p' = output p ++ B ++ [xff; xf9])
    /\ (cstr A <> bs "spec_prompt" -> cstr A <> bs "spec_map" ->
        output p' = output p ++ cstr A ++ bs ": " ++ B).
Proof.
  intros Ht Hc Hb.
  set (q := on_tag_text (on_arg_end (on_tag_text p A (List.length A)))
              B (List.length B)).
  assert (Hq : tag q = Some t) by exact Ht.
  assert (Hbq : body q = B) by (unfold q, body; simpl; apply firstn_all).
  assert (Haq : argstr (data q) = Some (A ++ [x00])).
  { unfold q, body in *; simpl. rewrite Hb, firstn_all. reflexivity. }
  assert (Hoq : obuf (data q) = obuf (data p)) by reflexivity.
  assert (HcA : cstr (A ++ [x00]) = cstr A) by apply cstr_app_nul.
  destruct (on_close_render rgb_to_xterm room_new q t rgb0 Hq)
    as (p' & Hp' & _ & Ho & _).
  exists p'; split; [exact Hp'|].
  unfold output. rewrite Ho, Hc. cbn [render]. rewrite Haq. split.
  - intros Hs.
    assert (E : (strcmp (A ++ [x00]) (bs "spec_prompt") =? 0) = true)
      by (apply strcmp_eqb; rewrite HcA, Hs; reflexivity).
    rewrite E. unfold obuf_append_str, obuf_append_buf, set_obuf; cbn [obuf tmpbuf].
    rewrite append_str_data, append_buf_data, Hoq, <- app_assoc.
    unfold body in Hbq; rewrite Hbq. reflexivity.
  - intros H1 H2.
    assert (E1 : (strcmp (A ++ [x00]) (bs "spec_prompt") =? 0) = false)
      by (apply strcmp_neqb; rewrite HcA; exact H1).
    assert (E2 : (strcmp (A ++ [x00]) (bs "spec_map") =? 0) = false)
      by (apply strcmp_neqb; rewrite HcA; exact H2).
    rewrite E1, E2.
    unfold obuf_append_str, obuf_append_buf, set_obuf; cbn [obuf tmpbuf].
    rewrite append_buf_data, !append_str_data, Hoq, HcA, <- !app_assoc.
    unfold body in Hbq; rewrite Hbq. reflexivity.
Qed.

Lemma render_argstr_cstr (c : Z) (tmpstr : list byte) (rgb0 : Z)
  (st : proxy_state) (a a' : list byte) :
  cstr a = cstr a' ->
  obuf (render rgb_to_xterm room_new c tmpstr rgb0 (set_argstr st (Some a)))
  = obuf (render rgb_to_xterm room_new c tmpstr rgb0 (set_argstr st (Some a')))
  /\ room (render rgb_to_xterm room_new c tmpstr rgb0 (set_argstr st (Some a)))
     = room (render rgb_to_xterm room_new c tmpstr rgb0 (set_argstr st (Some a'))).
Proof.
  intros H. destruct (known_code c) eqn:K.
  - apply existsb_exists in K as (k & Hin & Hk). apply Z.eqb_eq in Hk; subst k.
    simpl in Hin.
    repeat (destruct Hin as [<-|Hin]; [|]); try contradiction;
      cbn [render Z.eqb Pos.eqb argstr set_argstr tmpbuf room];
      rewrite ?(strcmp_eqb_cstr a a' _ H), ?(sscanf_6x_cstr a a' H);
      repeat match goal with
             | |- context [match ?o with Some _ => _ | None => _ end] => destruct o
             | |- context [if ?b then _ else _] => destruct b
             end;
      unfold obuf_append_str, obuf_append_buf, set_obuf, set_room,
        Buffer.buffer_append_str, Buffer.buffer_append;
      cbn [obuf tmpbuf room argstr Buffer.data];
      rewrite ?firstn_strlen, ?H; split; reflexivity.
  - rewrite !render_unknown by exact K. split; reflexivity.
Qed.

(** An argument with a NUL byte fails gracefully: a close sees the
    argument only as a C string, so two arguments with the same bytes
    before their first NUL give the same session. *)
Theorem argument_nul_graceful (p : bc_parser) (rgb0 : Z) (a a' : list byte) :
  cstr a = cstr a' ->
  on_close rgb_to_xterm room_new (with_argstr p a) rgb0
  = on_close rgb_to_xterm room_new (with_argstr p a') rgb0.
Proof.
  intros H. unfold on_close, with_argstr. cbn [tag data set_data].
  destruct (tag p) as [t|]; [|reflexivity].
  cbn [tmpbuf set_argstr].
  match goal with
  | |- context [render _ _ (code t) ?s rgb0 (set_tmpbuf ?st ?b)] =>
      change (set_tmpbuf st b)
        with (set_argstr (set_tmpbuf (data p) b) (Some a));
      destruct (render_argstr_cstr (code t) s rgb0
                  (set_tmpbuf (data p) b) a a' H) as [Ho Hr]
  end.
  unfold set_data, set_tmpbuf, set_argstr, Buffer.buffer_clear in *.
  cbn [obuf tmpbuf argstr room tag data] in *.
  rewrite Ho, Hr. reflexivity.
Qed.

(** The field width of [%6x]: a colour argument that starts with six
    hexadecimal digits is read as those six digits, and whatever follows
    them changes nothing. *)
Theorem color_six_digits_only (p : bc_parser) (t : bc_tag) (rgb0 : Z)
  (d rest : list byte) :
  tag p = Some t -> code t = 20 \/ code t = 21 ->
  List.length d = 6%nat -> all_hex d = true ->
  on_close rgb_to_xterm room_new (with_argstr p (d ++ rest)) rgb0
  = on_close rgb_to_xterm room_new (with_argstr p d) rgb0
  /\ exists p',
      on_close rgb_to_xterm room_new (with_argstr p (d ++ rest)) rgb0
      = Some p'
      /\ output p'
         = output p
             ++ color_fmt rgb_to_xterm (code t =? 20) (hexnum d)
                  (cstr (body p)).
Proof.
  intros Ht Hc Hl Hh.
  assert (E1 : sscanf_6x (d ++ rest) = Some (hexnum d))
    by (apply sscanf_6x_six; assumption).
  assert (E2 : sscanf_6x d = Some (hexnum d)).
  { rewrite <- (app_nil_r d) at 1. apply sscanf_6x_six; assumption. }
  split.
  - unfold on_close, with_argstr. cbn [tag data set_data]. rewrite Ht.
    cbn [tmpbuf set_argstr].
    destruct Hc as [Hc|Hc]; rewrite Hc;
      cbn [render Z.eqb Pos.eqb argstr set_tmpbuf set_argstr];
      rewrite E1, E2; reflexivity.
  - destruct (on_close_render rgb_to_xterm room_new
                (with_argstr p (d ++ rest)) t rgb0 Ht)
      as (p' & Hp' & _ & Ho & _).
    exists p'; split; [exact Hp'|]. unfold output. rewrite Ho.
    change (body (with_argstr p (d ++ rest))) with (body p).
    destruct Hc as [Hc|Hc]; rewrite Hc;
      cbn [render Z.eqb Pos.eqb with_argstr data set_data argstr set_argstr];
      rewrite E1; unfold obuf_append_str, set_obuf; cbn [obuf];
      rewrite append_str_data, (color_fmt_cstr rgb_to_xterm room_new);
      reflexivity.
Qed.

(** ** Any sequence of calls *)

Lemma on_close_output_grows (p p' : bc_parser) (rgb0 : Z) :
  on_close rgb_to_xterm room_new p rgb0 = Some p' ->
  tag p' = tag p /\ exists d, output p' = output p ++ d.
Proof.
  intros H. destruct (tag p) as [t|] eqn:Ht.
  - destruct (on_close_render rgb_to_xterm room_new p t rgb0 Ht)
      as (q & Hq & Htag & Ho & _).
    rewrite Hq in H; injection H as <-. split; [congruence|].
    unfold output. rewrite Ho, render_appends. eexists; reflexivity.
  - unfold on_close in H. rewrite Ht in H. discriminate.
Qed.

Lemma on_close_total (p : bc_parser) (rgb0 : Z) :
  tag p <> None -> on_close rgb_to_xterm room_new p rgb0 <> None.
Proof.
  unfold on_close. destruct (tag p); [discriminate | congruence].
Qed.

(** Whatever the parser calls and in whatever order, the output buffer
    only grows: no callback rewrites or removes a byte already rendered.
    The calls all return as long as the parser never clears its tag. *)
Theorem run_output_grows (cs : list callback) :
  forall p,
    tag p <> None ->
    (forall t, In (CbSetTag t) cs -> t <> None) ->
    exists p' d,
      run rgb_to_xterm room_new cs p = Some p'
      /\ output p' = output p ++ d.
Proof.
  induction cs as [|c cs IH]; intros p Ht Hcs.
  - exists p, []. split; [reflexivity | symmetry; apply app_nil_r].
  - assert (Hstep : exists q d, call rgb_to_xterm room_new p c = Some q
                               /\ tag q <> None /\ output q = output p ++ d).
    { destruct c as [t|j|j|buf len| |buf len]; simpl.
      - eexists; exists []; split; [reflexivity|]. split.
        + simpl. apply Hcs. left; reflexivity.
        + symmetry; apply app_nil_r.
      - unfold on_open. destruct (_ || _).
        + destruct (on_close rgb_to_xterm room_new p j) as [q|] eqn:E;
            [|exfalso; exact (on_close_total p j Ht E)].
          destruct (on_close_output_grows p q j E) as (Hq & d & Hd).
          exists q, d. repeat split; congruence.
        + exists p, []. repeat split; auto. symmetry; apply app_nil_r.
      - destruct (on_close rgb_to_xterm room_new p j) as [q|] eqn:E;
          [|exfalso; exact (on_close_total p j Ht E)].
        destruct (on_close_output_grows p q j E) as (Hq & d & Hd).
        exists q, d. repeat split; congruence.
      - eexists; exists []; split; [reflexivity|]. split; [exact Ht|].
        symmetry; apply app_nil_r.
      - eexists; exists []; split; [reflexivity|]. split; [exact Ht|].
        symmetry; apply app_nil_r.
      - eexists; eexists; split; [reflexivity|]. split; [exact Ht|].
        reflexivity. }
    destruct Hstep as (q & d & Hq & Htq & Hd).
    destruct (IH q Htq) as (p' & d' & Hrun & Hd').
    { intros t Hin. apply Hcs. right; exact Hin. }
    exists p', (d ++ d'). simpl. rewrite Hq. split; [exact Hrun|].
    rewrite Hd', Hd, app_assoc. reflexivity.
Qed.

(** What [on_close] and [on_open] do under a style or link tag: the
    pending body goes to the output and nothing stays pending. *)
Lemma passthrough_close_state (p : bc_parser) (t : bc_tag) (rgb0 : Z) :
  tag p = Some t -> In (code t) [22; 23; 24; 25; 31] ->
  exists p',
    on_close rgb_to_xterm room_new p rgb0 = Some p'
    /\ output p' = output p ++ body p
    /\ body p' = [] /\ argstr (data p') = None /\ tag p' = tag p.
Proof.
  intros Ht Hin.
  destruct (on_close_render rgb_to_xterm room_new p t rgb0 Ht)
    as (p' & Hp' & Htag & Ho & _ & Hb & Ha).
  exists p'; split; [exact Hp'|]. unfold output, body in *.
  rewrite Ho, Hb. repeat split; auto.
  simpl in Hin.
  repeat (destruct Hin as [<-|Hin];
          [cbn [render]; unfold obuf_append_buf, set_obuf; cbn [obuf];
           apply append_buf_data|]).
  contradiction.
Qed.

Lemma passthrough_open_state (p : bc_parser) (t : bc_tag) (rgb0 : Z) :
  tag p = Some t -> In (code t) [22; 23; 24; 25; 31] ->
  exists p',
    on_open rgb_to_xterm room_new p rgb0 = Some p'
    /\ output p' = output p ++ body p
    /\ body p' = [] /\ argstr (data p') = None /\ tag p' = tag p.
Proof.
  intros Ht Hin. unfold on_open.
  destruct ((0 <? Buffer.len (tmpbuf (data p)))%nat
            || match argstr (data p) with Some _ => true | None => false end)
    eqn:E.
  - apply passthrough_close_state with (t := t); assumption.
  - apply orb_false_iff in E as [E1 E2].
    assert (Hb : body p = []).
    { unfold body, Buffer.len in *.
      destruct (Buffer.data (tmpbuf (data p))); [reflexivity | discriminate E1]. }
    exists p. rewrite Hb, app_nil_r. repeat split.
    destruct (argstr (data p)); [discriminate E2 | reflexivity].
Qed.

(** Nested style tags are flattened without loss: when a style or link
    tag opens inside another one, the outer text before it, the inner text
    and the outer text after it reach the output whole and in order. *)
Theorem nested_style_tags_flatten (p : bc_parser) (t1 t2 : bc_tag)
  (A B C : list byte) (j1 j2 j3 j4 : Z) :
  In (code t1) [22; 23; 24; 25; 31] -> In (code t2) [22; 23; 24; 25; 31] ->
  body p = [] -> argstr (data p) = None ->
  exists p',
    run rgb_to_xterm room_new
      [CbSetTag (Some t1); CbOpen j1; CbTagText A (List.length A);
       CbSetTag (Some t2); CbOpen j2; CbTagText B (List.length B);
       CbClose j3;
       CbSetTag (Some t1); CbTagText C (List.length C); CbClose j4] p
    = Some p'
    /\ output p' = output p ++ A ++ B ++ C
    /\ body p' = [] /\ argstr (data p') = None.
Proof.
  intros H1 H2 Hb Ha.
  set (p1 := {| tag := Some t1; data := data p |}).
  destruct (passthrough_open_state p1 t1 j1 eq_refl H1)
    as (q1 & E1 & Ho1 & Hb1 & Ha1 & Ht1).
  change (output p1) with (output p) in Ho1.
  change (body p1) with (body p) in Ho1. rewrite Hb, app_nil_r in Ho1.
  set (q2 := {| tag := Some t2;
                data := data (on_tag_text q1 A (List.length A)) |}).
  assert (Hq2b : body q2 = A).
  { unfold q2, body in *; simpl. rewrite Hb1. apply firstn_all. }
  assert (Hq2o : output q2 = output p) by (rewrite <- Ho1; reflexivity).
  destruct (passthrough_open_state q2 t2 j2 eq_refl H2)
    as (q3 & E3 & Ho3 & Hb3 & Ha3 & Ht3).
  rewrite Hq2b, Hq2o in Ho3.
  set (q4 := on_tag_text q3 B (List.length B)).
  assert (Hq4t : tag q4 = Some t2) by (unfold q4; simpl; rewrite Ht3; reflexivity).
  assert (Hq4b : body q4 = B).
  { unfold q4, body in *; simpl. rewrite Hb3. apply firstn_all. }
  assert (Hq4o : output q4 = output p ++ A) by (rewrite <- Ho3; reflexivity).
  destruct (passthrough_close_state q4 t2 j3 Hq4t H2)
    as (q5 & E5 & Ho5 & Hb5 & Ha5 & Ht5).
  rewrite Hq4b, Hq4o in Ho5.
  set (q6 := on_tag_text {| tag := Some t1; data := data q5 |} C (List.length C)).
  assert (Hq6b : body q6 = C).
  { unfold q6, body in *; simpl. rewrite Hb5. apply firstn_all. }
  assert (Hq6o : output q6 = (output p ++ A) ++ B)
    by (rewrite <- Ho5; reflexivity).
  destruct (passthrough_close_state q6 t1 j4 eq_refl H1)
    as (q7 & E7 & Ho7 & Hb7 & Ha7 & Ht7).
  rewrite Hq6b, Hq6o in Ho7.
  exists q7. split.
  - cbn [run call]. fold p1. rewrite E1. cbn [run call]. fold q2. rewrite E3.
    cbn [run call]. fold q4. rewrite E5. cbn [run call]. fold q6. exact E7.
  - rewrite Ho7, <- !app_assoc. auto.
Qed.

End Callbacks.

(** ** Concrete runs of the further properties *)

Lemma passthrough_tags_witness :
  tag p_bold = Some {| code := 22 |}
  /\ In 22 [22; 23; 24; 25; 31]
  /\ exists p', on_close sample_palette no_room p_bold 0 = Some p'
                /\ output p' = bs "> bo" ++ [x00] ++ bs "ld".
Proof.
  split; [reflexivity|]. split; [simpl; tauto|].
  apply (passthrough_tags sample_palette no_room p_bold _ 0 eq_refl).
  simpl; tauto.
Defined.

Lemma labelled_tags_witness :
  tag p_target = Some {| code := 70 |}
  /\ exists p', on_close sample_palette no_room p_target 0 = Some p'
                /\ output p' = bs "> [target]orc: 50%" ++ NL.
Proof.
  split; [reflexivity|].
  destruct (labelled_tags sample_palette no_room p_target _ 0 eq_refl)
    as (p' & H & _ & H70).
  exists p'; split; [exact H|]. exact (H70 eq_refl).
Defined.

Lemma spec_map_body_witness :
  tag p_map_art = Some {| code := 10 |}
  /\ argstr (data p_map_art) = Some (bs "spec_map" ++ [x00])
  /\ cstr (bs "spec_map" ++ [x00]) = bs "spec_map"
  /\ (exists p', on_close sample_palette no_room p_map_art 0 = Some p'
                 /\ output p' = bs "> ..^^..")
  /\ (exists p', on_close sample_palette no_room p_nomap 0 = Some p'
                 /\ output p' = bs "> ").
Proof.
  repeat (split; [reflexivity|]). split.
  - destruct (spec_map_body sample_palette no_room p_map_art _ 0 _
                eq_refl eq_refl eq_refl eq_refl) as (p' & H & _ & H2).
    exists p'; split; [exact H|]. apply H2. discriminate.
  - destruct (spec_map_body sample_palette no_room p_nomap _ 0 _
                eq_refl eq_refl eq_refl eq_refl) as (p' & H & H1 & _).
    exists p'; split; [exact H|]. exact (H1 eq_refl).
Defined.

Lemma mapper_without_prefix_witness :
  tag p_no_mapper = Some {| code := 99 |}
  /\ firstn 12 (cstr (body p_no_mapper)) <> bs "BAT_MAPPER;;"
  /\ exists p', on_close sample_palette sample_room_new p_no_mapper 0 = Some p'
                /\ obuf (data p') = {| Buffer.data := bs "> " |}
                /\ room (data p') = Some room_a1.
Proof.
  assert (H : firstn 12 (cstr (body p_no_mapper)) <> bs "BAT_MAPPER;;")
    by discriminate.
  split; [reflexivity|]. split; [exact H|].
  exact (mapper_without_prefix sample_palette sample_room_new p_no_mapper _ 0
           eq_refl eq_refl H).
Defined.

Lemma realm_map_forgets_room_witness :
  tag p_realm = Some {| code := 99 |}
  /\ room (data p_realm) = Some room_a1
  /\ exists p',
       on_close sample_palette sample_room_new p_realm 0 = Some p'
       /\ room (data p') = None
       /\ exists p'',
            on_close sample_palette sample_room_new
              (on_tag_text p' (bs "BAT_MAPPER;;Ar2") 15) 0 = Some p''
            /\ output p''
               = output p' ++ bs "Entered area A with direction north" ++ NL.
Proof.
  split; [reflexivity|]. split; [reflexivity|].
  destruct (realm_map_forgets_room sample_palette sample_room_new p_realm _ 0
              eq_refl eq_refl eq_refl) as (p' & H & Hr & Hnext).
  exists p'; split; [exact H|]. split; [exact Hr|].
  assert (Hne : bs "Ar2" <> bs "REALM_MAP") by discriminate.
  destruct (Hnext (bs "BAT_MAPPER;;Ar2") (bs "Ar2") _ 0 eq_refl Hne eq_refl)
    as (p'' & H' & Ho & _).
  exists p''; split; [exact H'|]. exact Ho.
Defined.

Lemma close_keeps_room_witness :
  tag p_chan_room = Some {| code := 10 |}
  /\ 10 <> 99
  /\ exists p', on_close sample_palette sample_room_new p_chan_room 0 = Some p'
                /\ room (data p') = Some room_a1.
Proof.
  assert (H : 10 <> 99) by discriminate.
  split; [reflexivity|]. split; [exact H|].
  exact (close_keeps_room sample_palette sample_room_new p_chan_room _ 0
           eq_refl H).
Defined.

Lemma close_then_open_noop_witness :
  exists p',
    on_close sample_palette no_room p_chan 0 = Some p'
    /\ output p' = bs "> chan: hi"
    /\ on_open sample_palette no_room p' 5 = Some p'.
Proof.
  eexists. split; [reflexivity|]. split; [reflexivity|].
  apply (close_then_open_noop sample_palette no_room p_chan _ 0 5).
  reflexivity.
Defined.

Lemma argument_then_body_witness :
  tag p_fresh = Some {| code := 10 |}
  /\ body p_fresh = []
  /\ (exists p',
        on_close sample_palette no_room
          (on_tag_text (on_arg_end (on_tag_text p_fresh (bs "chan") 4))
             (bs "hi") 2) 0 = Some p'
        /\ output p' = bs "> chan: hi")
  /\ (exists p',
        on_close sample_palette no_room
          (on_tag_text (on_arg_end (on_tag_text p_fresh (bs "spec_prompt") 11))
             (bs "hp:10") 5) 0 = Some p'
        /\ output p' = bs "> hp:10" ++ [xff; xf9]).
Proof.
  split; [reflexivity|]. split; [reflexivity|]. split.
  - destruct (argument_then_body sample_palette no_room p_fresh _ 0
                (bs "chan") (bs "hi") eq_refl eq_refl eq_refl)
      as (p' & H & _ & H2).
    exists p'; split; [exact H|]. apply H2; discriminate.
  - destruct (argument_then_body sample_palette no_room p_fresh _ 0
                (bs "spec_prompt") (bs "hp:10") eq_refl eq_refl eq_refl)
      as (p' & H & H1 & _).
    exists p'; split; [exact H|]. exact (H1 eq_refl).
Defined.

Lemma argument_nul_graceful_witness :
  cstr (bs "spec_prompt" ++ [x00] ++ bs "junk") = cstr (bs "spec_prompt")
  /\ on_close sample_palette no_room
       (with_argstr p_plain (bs "spec_prompt" ++ [x00] ++ bs "junk")) 0
     = on_close sample_palette no_room
         (with_argstr p_plain (bs "spec_prompt")) 0.
Proof.
  split; [reflexivity|].
  apply (argument_nul_graceful sample_palette no_room p_plain 0).
  reflexivity.
Defined.

Lemma color_six_digits_only_witness :
  tag (p_red 20) = Some {| code := 20 |}
  /\ List.length (bs "ff0000") = 6%nat /\ all_hex (bs "ff0000") = true
  /\ on_close sample_palette no_room
       (with_argstr (p_red 20) (bs "ff0000" ++ bs "80")) 0
     = on_close sample_palette no_room (with_argstr (p_red 20) (bs "ff0000")) 0.
Proof.
  repeat (split; [reflexivity|]).
  apply (color_six_digits_only sample_palette no_room (p_red 20) _ 0
           (bs "ff0000") (bs "80") eq_refl (or_introl eq_refl)
           eq_refl eq_refl).
Defined.

Lemma run_output_grows_witness :
  tag p_fresh <> None
  /\ exists p' d,
       run sample_palette no_room sample_calls p_fresh = Some p'
       /\ output p' = output p_fresh ++ d.
Proof.
  assert (Ht : tag p_fresh <> None) by discriminate.
  split; [exact Ht|].
  apply (run_output_grows sample_palette no_room sample_calls p_fresh Ht).
  intros t Hin. simpl in Hin.
  destruct Hin as [H|[H|[H|[H|[H|[H|[H|H]]]]]]];
    try discriminate H; try contradiction.
  injection H as <-. discriminate.
Defined.

Lemma nested_style_tags_flatten_witness :
  body p_fresh = [] /\ argstr (data p_fresh) = None
  /\ exists p',
       run sample_palette no_room
         [CbSetTag (Some {| code := 22 |}); CbOpen 0; CbTagText (bs "a") 1;
          CbSetTag (Some {| code := 23 |}); CbOpen 0; CbTagText (bs "b") 1;
          CbClose 0;
          CbSetTag (Some {| code := 22 |}); CbTagText (bs "c") 1; CbClose 0]
         p_fresh = Some p'
       /\ output p' = bs "> abc"
       /\ body p' = [] /\ argstr (data p') = None.
Proof.
  split; [reflexivity|]. split; [reflexivity|].
  assert (H22 : In 22 [22; 23; 24; 25; 31]) by (simpl; tauto).
  assert (H23 : In 23 [22; 23; 24; 25; 31]) by (simpl; tauto).
  exact (nested_style_tags_flatten sample_palette no_room p_fresh
           {| code := 22 |} {| code := 23 |} (bs "a") (bs "b") (bs "c")
           0 0 0 0 H22 H23 eq_refl eq_refl).
Defined.
